(** * Adala agent: skill selection, prompt refinement and the learning loop

    A shallow embedding of [adala/agents/base.py] (class [Agent]) and the
    properties of its learning loop.

    Python values are embedded as follows.
    - [str] is [string]; [float] is [spec_float] (IEEE 754 binary64 values,
      compared with [SFltb] as Python's [<] does, so that a NaN is never below
      anything);
    - a [dict] whose iteration order is observed (the runtimes, the
      output-name -> skill-name mapping) is an association list; a mapping that
      is only indexed (the accuracy series, a table record, the skills of a
      skill set) is a [gmap];
    - an exception is a value of [exn]; a method that can raise and that changes
      the agent or talks to a collaborator is a state transformer returning a
      [result], the state reached when the exception is raised being kept. *)

From Stdlib Require Import ZArith List Ascii String DecimalString.
From Stdlib Require Import Floats.SpecFloat.
From stdpp Require Import base option list gmap strings.

Local Open Scope string_scope.

(** ** Exceptions and results *)

Inductive exn : Type :=
  | KeyError (key : string)
  | ValueError (msg : string)
  | TypeError (msg : string)
  | CollaboratorError (msg : string).

Inductive result (A : Type) : Type :=
  | Ok (a : A)
  | Raise (e : exn).

Arguments Ok {A} a.
Arguments Raise {A} e.

(** A computation over a mutable state [S]: what it returns or raises, and the
    state it leaves behind. *)
Definition M (S A : Type) : Type := S -> result A * S.

Definition ret {S A} (a : A) : M S A := fun s => (Ok a, s).

Definition bind {S A B} (c : M S A) (k : A -> M S B) : M S B :=
  fun s =>
    match c s with
    | (Ok a, s') => k a s'
    | (Raise e, s') => (Raise e, s')
    end.

Definition lift {S A} (r : result A) : M S A := fun s => (r, s).

Definition get {S} : M S S := fun s => (Ok s, s).

Definition modify {S} (f : S -> S) : M S unit := fun s => (Ok tt, f s).

#[global] Instance M_ret {S} : MRet (M S) := fun A a => ret a.
#[global] Instance M_bind {S} : MBind (M S) := fun A B k c => bind c k.

(** The pure fragment: [result] alone. *)
#[global] Instance result_ret : MRet result := fun A a => Ok a.
#[global] Instance result_bind : MBind result := fun A B k r =>
  match r with
  | Ok a => k a
  | Raise e => Raise e
  end.

(** ** Characters that a string literal cannot hold *)

Definition nl : string := String (ascii_of_nat 10) EmptyString.
Definition dq : string := String (ascii_of_nat 34) EmptyString.

(** ** Python dictionaries with an observable order *)

Module Dict.
Definition t (V : Type) : Type := list (string * V).

Definition keys {V} (d : t V) : list string := map fst d.

Fixpoint get {V} (d : t V) (k : string) : option V :=
  match d with
  | [] => None
  | (k', v) :: d' => if String.eqb k k' then Some v else get d' k
  end.

(** [k in d] *)
Definition mem {V} (k : string) (d : t V) : bool :=
  existsb (String.eqb k) (keys d).
End Dict.

(** ** Floats *)

(** Python's [a < b] on floats. *)
Definition float_lt (a b : spec_float) : bool := SFltb a b.

(** Python's [a >= b] on floats, that is [b <= a]. *)
Definition float_ge (a b : spec_float) : bool := SFleb b a.

(** ** Skills and skill sets

    The classes [Skill] and [SkillSet] live outside this module; the agent
    reads a skill's [instructions], [input_template] and [output_template],
    writes its [instructions], indexes the skill set by skill name and asks it
    for [get_skill_outputs()]. *)

Record Skill : Type := mkSkill {
  name : string;
  instructions : string;
  input_template : string;
  output_template : string
}.

Definition set_instructions (new_instructions : string) (s : Skill) : Skill :=
  {| name := name s;
     instructions := new_instructions;
     input_template := input_template s;
     output_template := output_template s |}.

Record SkillSet : Type := mkSkillSet {
  (** the skills by name: [self.skills[name]] *)
  skills_by_name : gmap string Skill;
  (** [get_skill_outputs()]: output name -> owning skill name, in its
      iteration order *)
  skill_outputs : Dict.t string
}.

(** [self.skills[name]] *)
Definition skillset_getitem (ss : SkillSet) (n : string) : result Skill :=
  match skills_by_name ss !! n with
  | Some s => Ok s
  | None => Raise (KeyError n)
  end.

(** ** Table cells and records

    [analyzed_df.to_dict(orient="records")] yields one [dict] per table row,
    from column name to cell. A cell is an arbitrary Python object; the loop
    observes it through its truth value ([not row[...]]) and its [str()]
    (template and f-string substitution). The cells embedded here are the
    ones a text table with missing entries holds: [None], the float NaN that
    the table library uses for a missing entry, strings and integers. *)

Inductive value : Type :=
  | PyNone
  | PyNaN
  | PyStr (s : string)
  | PyInt (z : Z).

(** [bool(v)]: [None], [""] and [0] are false; NaN, being a float different
    from [0.0], is true. *)
Definition truthy (v : value) : bool :=
  match v with
  | PyNone => false
  | PyNaN => true
  | PyStr s => negb (String.eqb s "")
  | PyInt z => negb (Z.eqb z 0)
  end.

(** [str(v)] *)
Definition py_str (v : value) : string :=
  match v with
  | PyNone => "None"
  | PyNaN => "nan"
  | PyStr s => s
  | PyInt z => NilZero.string_of_int (Z.to_int z)
  end.

(** [row[k]] *)
Definition row_getitem (row : gmap string value) (k : string) : result value :=
  match row !! k with
  | Some v => Ok v
  | None => Raise (KeyError k)
  end.

(** ** [str.format], the row being passed as keyword arguments

    The template is scanned from left to right: [{{] and [}}] stand for a
    brace, a single closing brace and an opening brace that ends the template
    raise [ValueError]. A replacement field whose text is a plain name, an
    ASCII letter or underscore followed by ASCII letters, digits and
    underscores, is replaced by [str(row[name])] and raises [KeyError] on
    the name when the row has no such field. Every other replacement field
    (a conversion, a format specification, an attribute or an index, an empty
    or numeric field, any other character, a field that the template does
    not close) is left to the built-in: [format_beyond] is what [str.format]
    gives on a template that starts with such a field. *)

Class StrFormat : Type := {
  format_beyond : string -> gmap string value -> result string
}.

Definition name_start (c : ascii) : bool :=
  let n := N_of_ascii c in
  ((65 <=? n) && (n <=? 90) || (97 <=? n) && (n <=? 122) || (n =? 95))%N.

Definition name_char (c : ascii) : bool :=
  let n := N_of_ascii c in
  (name_start c || (48 <=? n) && (n <=? 57))%N.

(** A plain field name. *)
Definition plain_name (s : string) : bool :=
  match s with
  | EmptyString => false
  | String c rest => name_start c && forallb name_char (list_ascii_of_string rest)
  end.

Section Format.
Context {python_format : StrFormat}.

(** [field] is [None] while literal text is scanned; inside a replacement
    field it holds the characters of the name read so far and the part of
    the template that starts at the opening brace of the field. *)
Fixpoint format_scan (row : gmap string value)
    (field : option (string * string)) (template : string) : result string :=
  match field, template with
  | None, EmptyString => Ok ""
  | None, String "{" (String "{" rest) =>
      out ← format_scan row None rest; mret ("{" +:+ out)
  | None, String "}" (String "}" rest) =>
      out ← format_scan row None rest; mret ("}" +:+ out)
  | None, String "{" EmptyString =>
      Raise (ValueError "Single '{' encountered in format string")
  | None, String "{" rest => format_scan row (Some ("", template)) rest
  | None, String "}" _ =>
      Raise (ValueError "Single '}' encountered in format string")
  | None, String c rest =>
      out ← format_scan row None rest; mret (String c out)
  | Some (_, start), EmptyString => format_beyond start row
  | Some (f, start), String c rest =>
      if (if String.eqb f "" then name_start c else name_char c)
      then format_scan row (Some (f +:+ String c "", start)) rest
      else if Ascii.eqb c "}" && negb (String.eqb f "")
      then
        v ← row_getitem row f;
        out ← format_scan row None rest;
        mret (py_str v +:+ out)
      else format_beyond start row
  end.

Definition format_template (template : string) (row : gmap string value)
  : result string :=
  format_scan row None template.
End Format.

(** Text without braces: literal text of a template. *)
Fixpoint no_brace (s : string) : bool :=
  match s with
  | EmptyString => true
  | String c rest =>
      negb (Ascii.eqb c "{") && negb (Ascii.eqb c "}") && no_brace rest
  end.

(** ** Dialogues *)

Record message : Type := mkMessage {
  role : string;
  content : string
}.

(** ** Collaborators

    The table library, the environment, the skill set's [apply] and the
    runtimes are outside this module. Tables are an abstract type with the
    four operations the loop uses. The environment and the runtimes are
    stateful and may raise: each call maps the collaborators' state [World] to
    a result and a new state. *)

Class DataFrame (DF : Type) : Type := {
  (** [df.columns] *)
  columns : DF -> list string;
  (** [df.rename(columns=f)] *)
  rename_columns : (string -> string) -> DF -> DF;
  (** [left.merge(right, left_index=True, right_index=True)] *)
  merge_on_index : DF -> DF -> DF;
  (** [df.to_dict(orient="records")] *)
  to_records : DF -> list (gmap string value)
}.

Class Collaborators (World DF Feedback Runtime : Type) : Type := {
  (** [environment.get_data_batch(batch_size=...)] *)
  get_data_batch : option Z -> World -> result DF * World;
  (** [skills.apply(inputs, runtime=runtime)] *)
  skills_apply : SkillSet -> DF -> Runtime -> World -> result DF * World;
  (** [environment.get_feedback(skills, predictions, num_feedbacks=...)] *)
  get_feedback : SkillSet -> DF -> option Z -> World -> result Feedback * World;
  (** [feedback.feedback] *)
  feedback_table : Feedback -> DF;
  (** [feedback.get_accuracy()] *)
  get_accuracy : Feedback -> gmap string spec_float;
  (** [runtime.execute(messages)] *)
  runtime_execute : Runtime -> list message -> World -> result string * World
}.

(** ** The agent

    [runtimes] and [teacher_runtimes] are [Optional[Dict[str, Runtime]]]:
    [None] is a legal value, on which a membership test raises [TypeError].
    The environment is a collaborator, its state is part of [World]. *)

Record Agent (Runtime : Type) : Type := mkAgent {
  skills : SkillSet;
  runtimes : option (Dict.t Runtime);
  teacher_runtimes : option (Dict.t Runtime);
  default_runtime : string;
  default_teacher_runtime : string
}.

Arguments mkAgent {Runtime}.
Arguments skills {Runtime}.
Arguments runtimes {Runtime}.
Arguments teacher_runtimes {Runtime}.
Arguments default_runtime {Runtime}.
Arguments default_teacher_runtime {Runtime}.

(** [str(list(d))] for a dictionary with string keys: the list display of the
    [repr] of each key. [repr] on strings is Python's, taken as [repr_str]. *)
Definition str_list (repr_str : string -> string) (l : list string) : string :=
  "[" +:+ String.concat ", " (map repr_str l) +:+ "]".



Section Validation.
Context {Runtime : Type}.
Variable repr_str : string -> string.

(** The text [print_error] receives in [_raise_default_runtime_error]. *)
Definition default_runtime_error_text (val runtime : string)
    (runtimes : Dict.t Runtime) (default_value : string) : string :=
  "The Agent." +:+ runtime +:+ " is set to " +:+ val +:+ ", "
  +:+ "but this runtime is not available in the list: "
  +:+ str_list repr_str (Dict.keys runtimes) +:+ ". "
  +:+ "Please choose one of the available runtimes and initialize the agent again, for example:"
  +:+ nl +:+ nl
  +:+ "agent = Agent(..., " +:+ runtime +:+ "='" +:+ default_value +:+ "')"
  +:+ nl +:+ nl
  +:+ "Make sure the default runtime is available in the list of runtimes. For example:"
  +:+ nl +:+ nl
  +:+ "agent = Agent(..., runtimes={'" +:+ default_value
  +:+ "': OpenAIRuntime(model='gpt-4')})"
  +:+ nl +:+ nl.

(** [_raise_default_runtime_error]: what is printed, and the exception. *)
Definition _raise_default_runtime_error {A} (val runtime : string)
    (runtimes : Dict.t Runtime) (default_value : string)
  : list string * result A :=
  ([default_runtime_error_text val runtime runtimes default_value],
   Raise (ValueError
     ("default runtime " +:+ val +:+ " not found in provided runtimes."))).

(** The model validator run when an agent is constructed: it returns what
    was printed and either the agent or the exception that makes the
    construction fail. *)
Definition verify_input_parameters (self : Agent Runtime)
  : list string * result (Agent Runtime) :=
  match runtimes self with
  | None => ([], Raise (TypeError "argument of type 'NoneType' is not iterable"))
  | Some rs =>
      if negb (Dict.mem (default_runtime self) rs)
      then _raise_default_runtime_error
             (default_runtime self) "default_runtime" rs "openai"
      else
        match teacher_runtimes self with
        | None =>
            ([], Raise (TypeError "argument of type 'NoneType' is not iterable"))
        | Some ts =>
            if negb (Dict.mem (default_teacher_runtime self) ts)
            then _raise_default_runtime_error
                   (default_teacher_runtime self) "default_teacher_runtime"
                   ts "openai-gpt4"
            else ([], Ok self)
        end
  end.
End Validation.

Section Runtimes.
Context {Runtime : Type}.

Definition get_runtime (self : Agent Runtime) (runtime : option string)
  : result Runtime :=
  let runtime := default (default_runtime self) runtime in
  match runtimes self with
  | None => Raise (TypeError "argument of type 'NoneType' is not iterable")
  | Some rs =>
      if negb (Dict.mem runtime rs)
      then Raise (ValueError
             ("Runtime " +:+ dq +:+ runtime +:+ dq +:+ " not found."))
      else
        match Dict.get rs runtime with
        | Some r => Ok r
        | None => Raise (KeyError runtime)
        end
  end.

Definition get_teacher_runtime (self : Agent Runtime) (runtime : option string)
  : result Runtime :=
  let runtime := default (default_teacher_runtime self) runtime in
  match teacher_runtimes self with
  | None => Raise (TypeError "argument of type 'NoneType' is not iterable")
  | Some rs =>
      if negb (Dict.mem runtime rs)
      then Raise (ValueError
             ("Teacher Runtime " +:+ dq +:+ runtime +:+ dq +:+ " not found."))
      else
        match Dict.get rs runtime with
        | Some r => Ok r
        | None => Raise (KeyError runtime)
        end
  end.
End Runtimes.

(** ** The refinement dialogue *)

Definition system_text : string := "You are a helpful assistant.".

Definition task_text : string :=
"
A prompt is a text paragraph that outlines the expected actions and instructs the model to generate a specific output. This prompt is concatenated with the input text, and the model then creates the required output. Formally, the prompt is a prefix to the input:

output = model(concatenate(prompt, input))

Model can produce erroneous output if the prompt is not well defined. In our collaboration, we’ll work together to refine a prompt. The process consists of two main steps:

## Step 1
I will provide you with the current prompt, how the prompt is concatenated with the input text
(i.e., " +:+ dq +:+ "full template" +:+ dq +:+ "), along with some example(s) that are associated with
this prompt. Each example contains the input, the final answer produced by the model, and the user feedback.
Your task is to analyze the examples, determining whether the
existing prompt is decsribing the task reflected by these examples precisely, and suggest
changes to the prompt.

## Step 2
Next, you will carefully review your reasoning in step 1, integrate the insights to craft a
new, optimized prompt.".

Definition acknowledgement_text : string :=
  "Sure, I’d be happy to help you with this prompt engineering problem. "
  +:+ "Please provide me with the current prompt, the full template, and the examples.".

(** The user turn that closes the first phase. *)
Definition critique_request (skill : Skill) (examples : string) : string :=
"
## Current Prompt
"
  +:+ instructions skill
  +:+ "

## Full Template
{current prompt}
"
  +:+ input_template skill
  +:+ "
"
  +:+ output_template skill
  +:+ "

## Examples
"
  +:+ examples
  +:+ "

## Instructions
For some of these examples, the user feedback points out that the model is not producing the correct output. This may be due to the prompt being misleading or not describing the task precisely.

Please examine the example(s) carefully. Note that the user feedback should be considered as ground truth, but the prompts (task descriptions) may be incorrect and need modification.
For each example, provide reasoning according to the following template:

### Example <id>
Input: <input>
Output: <output>
Feedback: <feedback>
Is the output correct according to the feedback: <yes or no, and your reasoning>
To output the correct label, is it necessary to edit the prompt: <yes or no, and your
reasoning>
If yes, provide detailed analysis and actionable suggestions to edit the prompt: <analysis and
suggestions>
".

(** The user turn of the second phase. *)
Definition rewrite_request (skill : Skill) : string :=
"
Now please carefully review your reasoning in Step 1 and help with Step 2: refining the prompt.

## Current prompt
"
  +:+ instructions skill
  +:+ "

## Instructions

- The new prompt should be concise and direct.
- The new prompt should should describe the task precisely and address the points raised in the user feedback.
- Include a few examples in the prompt to help the model learn the task, by providing inputs and outputs that follow full template.
- Reply only with the prompt. Do not include other text.
".

(** ** Selection, example building, refinement and the loop *)

Section Learning.
Context {World DF Feedback Runtime : Type}.
Context `{!DataFrame DF} `{!Collaborators World DF Feedback Runtime}.
Context {python_format : StrFormat}.

(** What a call of [learn] can change: the agent (the instructions of its
    skills) and the collaborators. [teacher_calls] records, in order, the
    dialogue of every [teacher_runtime.execute(messages)] call made, as it
    is when the call is made (the list [messages] is extended in place
    between the two calls of a refinement). *)
Record State : Type := mkState {
  self : Agent Runtime;
  world : World;
  teacher_calls : list (list message)
}.

(** A call to the environment or to the skill set. *)
Definition call {A} (f : World -> result A * World) : M State A :=
  fun st =>
    let '(r, w) := f (world st) in
    (r, {| self := self st; world := w; teacher_calls := teacher_calls st |}).

(** [teacher_runtime.execute(messages)] *)
Definition teacher_execute (teacher_runtime : Runtime)
    (messages : list message) : M State string :=
  fun st =>
    let '(r, w) := runtime_execute teacher_runtime messages (world st) in
    (r, {| self := self st; world := w;
           teacher_calls := (teacher_calls st ++ [messages])%list |}).

(** *** [select_skill_to_train] *)

(** [accuracy[skill_output]] on the series of accuracies. *)
Definition accuracy_getitem (accuracy : gmap string spec_float) (k : string)
  : result spec_float :=
  match accuracy !! k with
  | Some a => Ok a
  | None => Raise (KeyError k)
  end.

(** The loop over [self.skills.get_skill_outputs().items()], entered with
    [train_skill_name, train_skill_output, acc_score = "", "", None]. *)
Fixpoint select_loop (accuracy : gmap string spec_float)
    (accuracy_threshold : spec_float) (items : list (string * string))
  : result (string * string * option spec_float) :=
  match items with
  | [] => Ok ("", "", None)
  | (skill_output, skill_name) :: rest =>
      a ← accuracy_getitem accuracy skill_output;
      if float_lt a accuracy_threshold
      then
        acc_score ← accuracy_getitem accuracy skill_output;
        mret (skill_name, skill_output, Some acc_score)
      else select_loop accuracy accuracy_threshold rest
  end.

Definition select_skill_to_train (self : Agent Runtime) (feedback : Feedback)
    (accuracy_threshold : spec_float)
  : result (string * string * option spec_float) :=
  let accuracy := get_accuracy feedback in
  select_loop accuracy accuracy_threshold (skill_outputs (skills self)).

(** *** [pe_optimization] *)

Definition critique_dialogue (skill : Skill) (examples : string)
  : list message :=
  let messages := [mkMessage "system" system_text] in
  let messages := (messages ++ [mkMessage "user" task_text])%list in
  let messages :=
    (messages ++ [mkMessage "assistant" acknowledgement_text])%list in
  (messages ++ [mkMessage "user" (critique_request skill examples)])%list.

Definition pe_optimization (skill : Skill) (examples : string)
    (teacher_runtime : Runtime) : M State string :=
  let messages := critique_dialogue skill examples in
  reasoning ← teacher_execute teacher_runtime messages;
  let messages :=
    (messages ++ [mkMessage "assistant" reasoning;
                  mkMessage "user" (rewrite_request skill)])%list in
  new_prompt ← teacher_execute teacher_runtime messages;
  mret new_prompt.

(** *** The example loop of [learn] *)

(** One record: [None] when the record is skipped, the example block
    otherwise. *)
Definition example_of_row (train_skill : Skill) (train_skill_output : string)
    (row : gmap string value) : result (option string) :=
  fb ← row_getitem row (train_skill_output +:+ "__fb");
  if negb (truthy fb) then mret None
  else
    input ← format_template (input_template train_skill) row;
    output ← format_template (output_template train_skill) row;
    fb ← row_getitem row (train_skill_output +:+ "__fb");
    mret (Some (input +:+ nl +:+ output +:+ nl
                +:+ "Feedback: " +:+ py_str fb +:+ nl +:+ nl)).

(** [for row in analyzed_df.to_dict(orient="records")], [examples] being the
    list built so far. *)
Fixpoint build_examples (train_skill : Skill) (train_skill_output : string)
    (rows : list (gmap string value)) (examples : list string)
  : result (list string) :=
  match rows with
  | [] => Ok examples
  | row :: rest =>
      e ← example_of_row train_skill train_skill_output row;
      match e with
      | None => build_examples train_skill train_skill_output rest examples
      | Some block =>
          build_examples train_skill train_skill_output rest
            (examples ++ [block])%list
      end
  end.

(** *** [learn] *)

(** [train_skill.instructions = new_instructions], [train_skill] being the
    object the skill set holds under [train_skill_name]. *)
Definition assign_instructions (train_skill_name new_instructions : string)
  : M State unit :=
  modify (fun st =>
    {| self :=
         {| skills :=
              {| skills_by_name :=
                   alter (set_instructions new_instructions) train_skill_name
                         (skills_by_name (skills (self st)));
                 skill_outputs := skill_outputs (skills (self st)) |};
            runtimes := runtimes (self st);
            teacher_runtimes := teacher_runtimes (self st);
            default_runtime := default_runtime (self st);
            default_teacher_runtime := default_teacher_runtime (self st) |};
       world := world st;
       teacher_calls := teacher_calls st |}).

(** The body of the [for iteration in range(learning_iterations)] loop.
    Console output is not modelled. *)
Definition learn_iteration (runtime teacher_runtime : Runtime)
    (accuracy_threshold : spec_float) (batch_size num_feedbacks : option Z)
  : M State unit :=
  inputs ← call (get_data_batch batch_size);
  st ← get;
  predictions ← call (skills_apply (skills (self st)) inputs runtime);
  feedback ← call (get_feedback (skills (self st)) predictions num_feedbacks);
  let fb :=
    rename_columns
      (fun x => if existsb (String.eqb x) (columns predictions)
                then x +:+ "__fb" else x)
      (feedback_table feedback) in
  let analyzed_df := merge_on_index fb predictions in
  '(train_skill_name, train_skill_output, accuracy) ←
    lift (select_skill_to_train (self st) feedback accuracy_threshold);
  if String.eqb train_skill_name ""
  then mret tt
  else
    train_skill ← lift (skillset_getitem (skills (self st)) train_skill_name);
    examples ←
      lift (build_examples train_skill train_skill_output
              (to_records analyzed_df) []);
    new_instructions ←
      pe_optimization train_skill (String.concat nl examples) teacher_runtime;
    assign_instructions train_skill_name new_instructions.

Fixpoint learn_loop (runtime teacher_runtime : Runtime)
    (accuracy_threshold : spec_float) (batch_size num_feedbacks : option Z)
    (iterations : nat) : M State unit :=
  match iterations with
  | O => mret tt
  | S n =>
      learn_iteration runtime teacher_runtime accuracy_threshold
        batch_size num_feedbacks;;
      learn_loop runtime teacher_runtime accuracy_threshold
        batch_size num_feedbacks n
  end.

(** [range(learning_iterations)] is empty for a negative argument. *)
Definition learn (learning_iterations : Z) (accuracy_threshold : spec_float)
    (batch_size num_feedbacks : option Z) (runtime teacher_runtime : option string)
  : M State unit :=
  st ← get;
  runtime ← lift (get_runtime (self st) runtime);
  teacher_runtime ← lift (get_teacher_runtime (self st) teacher_runtime);
  learn_loop runtime teacher_runtime accuracy_threshold batch_size
    num_feedbacks (Z.to_nat learning_iterations).

(** *** The parts of an iteration

    The first statements of the loop body, up to the feedback, and the
    records of [analyzed_df]; [learn_iteration_observe] below shows that
    [learn_iteration] is made of them. *)
Definition observe (runtime : Runtime) (batch_size num_feedbacks : option Z)
  : M State (DF * Feedback) :=
  inputs ← call (get_data_batch batch_size);
  st ← get;
  predictions ← call (skills_apply (skills (self st)) inputs runtime);
  feedback ← call (get_feedback (skills (self st)) predictions num_feedbacks);
  mret (predictions, feedback).

Definition analyzed_records (predictions : DF) (feedback : Feedback)
  : list (gmap string value) :=
  to_records
    (merge_on_index
       (rename_columns
          (fun x => if existsb (String.eqb x) (columns predictions)
                    then x +:+ "__fb" else x)
          (feedback_table feedback))
       predictions).

(** [passes accuracy t o]: the output [o] has an accuracy, and it is not
    below [t]. *)
Definition passes (accuracy : gmap string spec_float) (t : spec_float)
    (o : string) : bool :=
  match accuracy !! o with
  | Some a => negb (float_lt a t)
  | None => false
  end.

(** [at_least accuracy t o]: the output [o] has an accuracy, and it is
    greater than or equal to [t]. *)
Definition at_least (accuracy : gmap string spec_float) (t : spec_float)
    (o : string) : bool :=
  match accuracy !! o with
  | Some a => float_ge a t
  | None => false
  end.

(** The instructions of the skill named [n], if the agent has it. *)
Definition instructions_of (st : State) (n : string) : option string :=
  instructions <$> skills_by_name (skills (self st)) !! n.

(** *** [run] *)

(** [input] is [None] when the caller passes no dataset: the batch is then
    asked from the environment, with its default batch size, before the
    runtime is looked up. *)
Definition run (input : option DF) (runtime : option string) : M State DF :=
  input ←
    match input with
    | None => call (get_data_batch None)
    | Some input => mret input
    end;
  st ← get;
  runtime ← lift (get_runtime (self st) runtime);
  predictions ← call (skills_apply (skills (self st)) input runtime);
  mret predictions.

(** Two agents that differ at most by the instructions of their skills: the
    same runtimes and defaults, the same output mapping, and under every name
    skills that are equal once their instructions are erased. *)
Definition same_but_instructions (a b : Agent Runtime) : Prop :=
  runtimes a = runtimes b
  /\ teacher_runtimes a = teacher_runtimes b
  /\ default_runtime a = default_runtime b
  /\ default_teacher_runtime a = default_teacher_runtime b
  /\ skill_outputs (skills a) = skill_outputs (skills b)
  /\ forall k,
       set_instructions "" <$> skills_by_name (skills a) !! k
       = set_instructions "" <$> skills_by_name (skills b) !! k.
End Learning.

Arguments State : clear implicits.
Arguments mkState {World Runtime}.

(** ** A concrete setting

    A small table type, and collaborators that serve fixed tables and read
    the teacher's replies from a script. They are used to run the definitions
    above on examples. *)

Module Scenario.
(** A table with a range index: row [i] has label [i]. *)
Record Table : Type := mkTable {
  table_columns : list string;
  table_rows : list (list value)
}.

#[global] Instance table_frame : DataFrame Table := {|
  columns := table_columns;
  rename_columns f t :=
    {| table_columns := map f (table_columns t);
       table_rows := table_rows t |};
  merge_on_index l r :=
    {| table_columns := (table_columns l ++ table_columns r)%list;
       table_rows := zip_with app (table_rows l) (table_rows r) |};
  to_records t :=
    map (fun r => list_to_map (zip (table_columns t) r)) (table_rows t)
|}.

Record Feedback : Type := mkFeedback {
  feedback : Table;
  accuracy : gmap string spec_float
}.

(** The state of the collaborators: how many batches the environment has
    served, the tables it holds, and the replies the teacher will give. *)
Record World : Type := mkWorld {
  served : nat;
  inputs : Table;
  predictions : Table;
  env_feedback : Feedback;
  script : list (result string)
}.

#[global] Instance collaborators : Collaborators World Table Feedback string := {|
  get_data_batch _ w :=
    (Ok (inputs w),
     {| served := S (served w); inputs := inputs w;
        predictions := predictions w; env_feedback := env_feedback w;
        script := script w |});
  skills_apply _ _ _ w := (Ok (predictions w), w);
  get_feedback _ _ _ w := (Ok (env_feedback w), w);
  feedback_table := feedback;
  get_accuracy := accuracy;
  runtime_execute _ _ w :=
    match script w with
    | [] => (Raise (CollaboratorError "no reply"), w)
    | r :: rest =>
        (r, {| served := served w; inputs := inputs w;
               predictions := predictions w; env_feedback := env_feedback w;
               script := rest |})
    end
|}.

(** The templates of this setting have plain field names only; what the
    built-in does beyond them is not needed, and stands as an exception. *)
#[export] Instance plain_fields_only : StrFormat := {|
  format_beyond _ _ := Raise (ValueError "replacement field beyond plain names")
|}.

(** [repr] of a string without quotes, backslashes or control characters. *)
Definition repr_plain (s : string) : string := "'" +:+ s +:+ "'".

(** The binary64 values of the literals [0.9], [0.5], [0.95] and [0.8]. *)
Definition f0_9 : spec_float := S754_finite false 8106479329266893 (-53).
Definition f0_5 : spec_float := S754_finite false 4503599627370496 (-53).
Definition f0_95 : spec_float := S754_finite false 8556839292003942 (-53).
Definition f0_8 : spec_float := S754_finite false 7205759403792794 (-53).

Definition summarize : Skill :=
  {| name := "summarize";
     instructions := "Summarize the text.";
     input_template := "Text: {text}";
     output_template := "Summary: {summary}" |}.

Definition skillset : SkillSet :=
  {| skills_by_name := {[ "summarize" := summarize ]};
     skill_outputs := [("summary", "summarize")] |}.

Definition agent (ss : SkillSet) : Agent string :=
  {| skills := ss;
     runtimes := Some [("openai", "worker")];
     teacher_runtimes := Some [("openai-gpt3", "teacher")];
     default_runtime := "openai";
     default_teacher_runtime := "openai-gpt3" |}.

Definition batch : Table :=
  {| table_columns := ["text"];
     table_rows := [[PyStr "a b c"]; [PyStr "d e f"]] |}.

Definition predicted : Table :=
  {| table_columns := ["text"; "summary"];
     table_rows := [[PyStr "a b c"; PyStr "a"]; [PyStr "d e f"; PyStr "d"]] |}.

(** A world whose feedback table has the cells [fb1] and [fb2] for the
    output [summary], with accuracy [acc]. *)
Definition world_with (fb1 fb2 : value) (acc : spec_float)
    (replies : list (result string)) : World :=
  {| served := 0;
     inputs := batch;
     predictions := predicted;
     env_feedback :=
       {| feedback :=
            {| table_columns := ["summary"];
               table_rows := [[fb1]; [fb2]] |};
          accuracy := {[ "summary" := acc ]} |};
     script := replies |}.

Definition titler : Skill :=
  {| name := "titler";
     instructions := "Give the text a title.";
     input_template := "Text: {text}";
     output_template := "Title: {title}" |}.

(** Two skills; the output [title] comes before the output [summary]. *)
Definition two_skills : SkillSet :=
  {| skills_by_name := {[ "titler" := titler; "summarize" := summarize ]};
     skill_outputs := [("title", "titler"); ("summary", "summarize")] |}.

Definition feedback_of (fb : list value) (acc : gmap string spec_float)
  : Feedback :=
  {| feedback :=
       {| table_columns := ["summary"]; table_rows := map (fun v => [v]) fb |};
     accuracy := acc |}.

(** A skill whose input template names the field [headline], which the
    tables of this setting do not have. *)
Definition headliner : Skill :=
  {| name := "summarize";
     instructions := "Summarize the text.";
     input_template := "Headline: {headline}";
     output_template := "Summary: {summary}" |}.

Definition headline_skillset : SkillSet :=
  {| skills_by_name := {[ "summarize" := headliner ]};
     skill_outputs := [("summary", "summarize")] |}.

Definition timeout : exn := CollaboratorError "timed out".

(** The feedback text of a record whose prediction is wrong. *)
Definition wrong : value := PyStr "Prediction is incorrect.".

(** A skill set whose output mapping names a skill it does not hold. *)
Definition orphan_output : SkillSet :=
  {| skills_by_name := {[ "summarize" := summarize ]};
     skill_outputs := [("summary", "summarise")] |}.

(** A skill set whose output [summary] is owned by a skill with the empty
    name. *)
Definition unnamed_owner : SkillSet :=
  {| skills_by_name := {[ "" := summarize ]};
     skill_outputs := [("summary", "")] |}.

Definition start (ss : SkillSet) (w : World) : State World string :=
  {| self := agent ss; world := w; teacher_calls := [] |}.
End Scenario.

(** * Properties *)

(** ** Sequencing *)

Section Sequencing.
Context {S A B : Type}.
Implicit Types (c : M S A) (k : A -> M S B).

Lemma bind_ok c k s a s' : c s = (Ok a, s') -> (c ≫= k) s = k a s'.
Proof. intros Hc. unfold mbind, M_bind, bind. now rewrite Hc. Qed.

Lemma bind_raise c k s e s' :
  c s = (Raise e, s') -> (c ≫= k) s = (Raise e, s').
Proof. intros Hc. unfold mbind, M_bind, bind. now rewrite Hc. Qed.

Lemma bind_lift_ok (r : result A) k s a : r = Ok a -> (lift r ≫= k) s = k a s.
Proof. intros ->. reflexivity. Qed.

Lemma bind_lift_raise (r : result A) k s e :
  r = Raise e -> (lift r ≫= k) s = (Raise e, s).
Proof. intros ->. reflexivity. Qed.
End Sequencing.

(** ** Comparison of floats *)

Lemma SFcompare_antisym (x y : spec_float) :
  SFcompare y x = option_map CompOpp (SFcompare x y).
Proof.
  destruct x as [sx|sx| |sx mx ex], y as [sy|sy| |sy my ey]; simpl;
    try reflexivity; try (destruct sx; reflexivity);
    try (destruct sy; reflexivity);
    try (destruct sx, sy; reflexivity).
  destruct sx, sy; simpl; try reflexivity;
    rewrite (Z.compare_antisym ex ey);
    destruct (ex ?= ey)%Z; simpl; try reflexivity; f_equal.
  - rewrite CompOpp_involutive. symmetry. exact (ZC4 mx my).
  - exact (ZC4 my mx).
Qed.

(** An accuracy that is at least the threshold is not below it. *)
Lemma float_ge_not_lt (a t : spec_float) :
  float_ge a t = true -> float_lt a t = false.
Proof.
  unfold float_ge, float_lt, SFleb, SFltb.
  rewrite (SFcompare_antisym t a).
  destruct (SFcompare t a) as [[]|]; simpl; congruence.
Qed.

(** A NaN accuracy is neither below the threshold nor at least it. *)
Lemma float_nan_unordered (t : spec_float) :
  float_lt S754_nan t = false /\ float_ge S754_nan t = false.
Proof. destruct t; split; reflexivity. Qed.

(** ** Skill selection *)

Section Selection.
Context {World DF Feedback Runtime : Type}.
Context `{!Collaborators World DF Feedback Runtime}.
Implicit Types (accuracy : gmap string spec_float) (t : spec_float).
Implicit Types (items pre post : list (string * string)).

Lemma at_least_passes accuracy t o :
  at_least accuracy t o = true -> passes accuracy t o = true.
Proof.
  unfold at_least, passes. destruct (accuracy !! o); [|congruence].
  intros H. now rewrite (float_ge_not_lt _ _ H).
Qed.

Lemma select_loop_skip accuracy t pre items :
  forallb (fun i => passes accuracy t i.1) pre = true ->
  select_loop accuracy t (pre ++ items) = select_loop accuracy t items.
Proof.
  induction pre as [|[o s] pre IH]; [reflexivity|].
  simpl. unfold passes at 1, accuracy_getitem.
  destruct (accuracy !! o) as [a|]; [|discriminate]. simpl.
  destruct (float_lt a t); [discriminate|]. exact IH.
Qed.

Lemma select_loop_hit accuracy t o s a post :
  accuracy !! o = Some a -> float_lt a t = true ->
  select_loop accuracy t ((o, s) :: post) = Ok (s, o, Some a).
Proof.
  intros Ha Hlt. simpl. unfold accuracy_getitem. rewrite Ha. simpl.
  now rewrite Hlt.
Qed.

Lemma select_loop_none accuracy t items :
  forallb (fun i => passes accuracy t i.1) items = true ->
  select_loop accuracy t items = Ok ("", "", None).
Proof.
  intros H. rewrite <- (app_nil_r items). now rewrite select_loop_skip.
Qed.

Lemma select_none (self : Agent Runtime) (feedback : Feedback) t :
  forallb (fun i => at_least (get_accuracy feedback) t i.1)
          (skill_outputs (skills self)) = true ->
  select_skill_to_train self feedback t = Ok ("", "", None).
Proof.
  intros H. apply select_loop_none.
  apply forallb_forall. intros i Hi.
  apply at_least_passes. revert i Hi. now apply forallb_forall.
Qed.

(** C2 (amended): when the outputs that precede it in the iteration order of
    [get_skill_outputs()] all have an accuracy that is not below the
    threshold, the first output whose accuracy is strictly below the
    threshold is returned with its owning skill and its accuracy, whatever
    the accuracies of the outputs that follow it. *)
Theorem select_first_below_threshold (self : Agent Runtime)
    (feedback : Feedback) t pre o s post a :
  skill_outputs (skills self) = (pre ++ (o, s) :: post)%list ->
  forallb (fun i => passes (get_accuracy feedback) t i.1) pre = true ->
  get_accuracy feedback !! o = Some a ->
  float_lt a t = true ->
  select_skill_to_train self feedback t = Ok (s, o, Some a).
Proof.
  intros Hitems Hpre Ha Hlt. unfold select_skill_to_train.
  rewrite Hitems, select_loop_skip by exact Hpre.
  now apply select_loop_hit.
Qed.

(** C8: the selection is a function of the accuracy mapping, the threshold
    and the iteration order of the output names alone: two calls that agree
    on these return the same triple, whatever else differs (the feedback
    table, the skills and their instructions, the runtimes). *)
Theorem select_deterministic (self1 self2 : Agent Runtime)
    (feedback1 feedback2 : Feedback) t :
  get_accuracy feedback1 = get_accuracy feedback2 ->
  skill_outputs (skills self1) = skill_outputs (skills self2) ->
  select_skill_to_train self1 feedback1 t
  = select_skill_to_train self2 feedback2 t.
Proof.
  intros Hacc Hout. unfold select_skill_to_train. now rewrite Hacc, Hout.
Qed.

(** C10: when the output [o] has no entry in the accuracy mapping and every
    output before it has an accuracy that is not below the threshold, the
    lookup of [o] raises [KeyError]: nothing is selected and the empty
    triple is not returned. *)
Theorem select_missing_accuracy_raises (self : Agent Runtime)
    (feedback : Feedback) t pre o s post :
  skill_outputs (skills self) = (pre ++ (o, s) :: post)%list ->
  forallb (fun i => passes (get_accuracy feedback) t i.1) pre = true ->
  get_accuracy feedback !! o = None ->
  select_skill_to_train self feedback t = Raise (KeyError o).
Proof.
  intros Hitems Hpre Ha. unfold select_skill_to_train.
  rewrite Hitems, select_loop_skip by exact Hpre.
  simpl. unfold accuracy_getitem. now rewrite Ha.
Qed.
End Selection.

Section SelectionExamples.
Import Scenario.

(** Both accuracies are below the threshold; the first output is selected,
    not the one with the lowest accuracy. *)
Lemma select_first_below_threshold_witness :
  select_skill_to_train (agent two_skills)
    (feedback_of [] {[ "title" := f0_8; "summary" := f0_5 ]}) f0_9
  = Ok ("titler", "title", Some f0_8).
Proof.
  apply (select_first_below_threshold (agent two_skills) _ f0_9
           [] "title" "titler" [("summary", "summarize")] f0_8);
    reflexivity.
Defined.

(** C2 as stated fails: the output [summary] has an accuracy below the
    threshold, and it is the only one, but the selector raises on the
    output [title] that precedes it and has no accuracy. *)
Lemma select_raises_before_first_below_threshold :
  let feedback := feedback_of [] {[ "summary" := f0_5 ]} in
  get_accuracy feedback !! "summary" = Some f0_5
  /\ float_lt f0_5 f0_9 = true
  /\ get_accuracy feedback !! "title" = None
  /\ select_skill_to_train (agent two_skills) feedback f0_9
     = Raise (KeyError "title")
  /\ select_skill_to_train (agent two_skills) feedback f0_9
     <> Ok ("summarize", "summary", Some f0_5).
Proof. repeat split; try reflexivity. vm_compute. discriminate. Qed.

Lemma select_deterministic_witness :
  select_skill_to_train (agent two_skills)
    (feedback_of [PyNone] {[ "title" := f0_95; "summary" := f0_5 ]}) f0_9
  = select_skill_to_train
      (mkAgent
         {| skills_by_name := {[ "titler" := summarize ]};
            skill_outputs := skill_outputs two_skills |}
         None None "a" "b")
      (feedback_of [PyStr "wrong"; PyNaN]
         {[ "summary" := f0_5; "title" := f0_95 ]}) f0_9.
Proof. apply select_deterministic; reflexivity. Defined.

Lemma select_missing_accuracy_raises_witness :
  select_skill_to_train (agent two_skills)
    (feedback_of [] {[ "title" := f0_95 ]}) f0_9
  = Raise (KeyError "summary").
Proof.
  apply (select_missing_accuracy_raises (agent two_skills) _ f0_9
           [("title", "titler")] "summary" "summarize" []);
    reflexivity.
Defined.
End SelectionExamples.

(** ** Prompt refinement *)

Section Refinement.
Context {World DF Feedback Runtime : Type}.
Context `{!DataFrame DF} `{!Collaborators World DF Feedback Runtime}.
Implicit Types (st : State World Runtime) (skill : Skill).
Implicit Types (teacher_runtime : Runtime).

Lemma teacher_execute_eq teacher_runtime messages st :
  teacher_execute teacher_runtime messages st
  = ((runtime_execute teacher_runtime messages (world st)).1,
     {| self := self st;
        world := (runtime_execute teacher_runtime messages (world st)).2;
        teacher_calls := (teacher_calls st ++ [messages])%list |}).
Proof.
  unfold teacher_execute.
  now destruct (runtime_execute teacher_runtime messages (world st)).
Qed.

(** The first call raises: it is the only call, and its exception is the
    outcome of the refinement. *)
Lemma pe_optimization_first_call_raises skill examples teacher_runtime st e w :
  runtime_execute teacher_runtime (critique_dialogue skill examples) (world st)
  = (Raise e, w) ->
  pe_optimization skill examples teacher_runtime st
  = (Raise e,
     {| self := self st; world := w;
        teacher_calls :=
          (teacher_calls st ++ [critique_dialogue skill examples])%list |}).
Proof.
  intros H. unfold pe_optimization.
  erewrite bind_raise; [reflexivity|].
  now rewrite teacher_execute_eq, H.
Qed.

(** The first call is answered: a second call follows, on the dialogue
    extended with the answer and the rewrite request. *)
Lemma pe_optimization_answered skill examples teacher_runtime st reasoning w :
  runtime_execute teacher_runtime (critique_dialogue skill examples) (world st)
  = (Ok reasoning, w) ->
  let second :=
    (critique_dialogue skill examples
     ++ [mkMessage "assistant" reasoning;
         mkMessage "user" (rewrite_request skill)])%list in
  pe_optimization skill examples teacher_runtime st
  = ((runtime_execute teacher_runtime second w).1,
     {| self := self st;
        world := (runtime_execute teacher_runtime second w).2;
        teacher_calls :=
          (teacher_calls st
           ++ [critique_dialogue skill examples; second])%list |}).
Proof.
  intros H second. unfold pe_optimization.
  erewrite bind_ok; [|rewrite teacher_execute_eq, H; reflexivity].
  unfold mbind, M_bind, bind. rewrite teacher_execute_eq.
  cbn [self world teacher_calls fst snd]. fold second.
  rewrite <- app_assoc.
  now destruct (runtime_execute _ second w) as [[new_prompt|e] w'].
Qed.

(** C4 (amended): the dialogue of the first call is made of three fixed
    turns, of roles system, user and assistant, and of a user turn that
    embeds the instructions, the two templates and the examples text. When
    the teacher answers the first call, the refiner makes exactly two calls:
    the dialogue of the second one is the dialogue of the first one followed
    by two turns, an assistant turn whose content is the first answer and a
    user turn that embeds the instructions, and the outcome of the second
    call is the outcome of the refinement, unchanged. When the first call
    raises, it is the only call and its exception is the outcome. *)
Theorem pe_optimization_two_calls :
  exists (opening : list message) (t1 t2 t3 t4 t5 r1 r2 : string),
    map role opening = ["system"; "user"; "assistant"]
    /\ forall (skill : Skill) (examples : string) teacher_runtime st,
         let first :=
           (opening
            ++ [mkMessage "user"
                  (t1 +:+ instructions skill +:+ t2
                   +:+ input_template skill +:+ t3
                   +:+ output_template skill +:+ t4
                   +:+ examples +:+ t5)])%list in
         (forall reasoning w,
            runtime_execute teacher_runtime first (world st)
            = (Ok reasoning, w) ->
            let second :=
              (first
               ++ [mkMessage "assistant" reasoning;
                   mkMessage "user" (r1 +:+ instructions skill +:+ r2)])%list in
            pe_optimization skill examples teacher_runtime st
            = ((runtime_execute teacher_runtime second w).1,
               {| self := self st;
                  world := (runtime_execute teacher_runtime second w).2;
                  teacher_calls :=
                    (teacher_calls st ++ [first; second])%list |}))
         /\ (forall e w,
               runtime_execute teacher_runtime first (world st)
               = (Raise e, w) ->
               pe_optimization skill examples teacher_runtime st
               = (Raise e,
                  {| self := self st; world := w;
                     teacher_calls := (teacher_calls st ++ [first])%list |})).
Proof.
  exists [mkMessage "system" system_text; mkMessage "user" task_text;
          mkMessage "assistant" acknowledgement_text].
  do 7 eexists. split; [reflexivity|].
  intros skill examples teacher_runtime st first.
  assert (first = critique_dialogue skill examples) as ->.
  { subst first. unfold critique_dialogue, critique_request. reflexivity. }
  split.
  - intros reasoning w Hcall second.
    rewrite (pe_optimization_answered _ _ _ _ _ _ Hcall).
    subst second. unfold rewrite_request. reflexivity.
  - intros e w Hcall. now apply pe_optimization_first_call_raises.
Qed.

(** The refiner does not touch the agent, and it calls the teacher on the
    critique dialogue before anything else. *)
Lemma pe_optimization_frame skill examples teacher_runtime st :
  self (pe_optimization skill examples teacher_runtime st).2 = self st
  /\ exists rest,
       teacher_calls (pe_optimization skill examples teacher_runtime st).2
       = (teacher_calls st ++ critique_dialogue skill examples :: rest)%list.
Proof.
  destruct (runtime_execute teacher_runtime
              (critique_dialogue skill examples) (world st))
    as [[reasoning|e] w] eqn:H.
  - rewrite (pe_optimization_answered _ _ _ _ _ _ H). simpl.
    split; [reflexivity|]. eexists. reflexivity.
  - rewrite (pe_optimization_first_call_raises _ _ _ _ _ _ H). simpl.
    split; [reflexivity|]. now exists [].
Qed.

(** X8: the refinement raises exactly when one of its two teacher calls
    does. *)
Lemma pe_optimization_raises_iff skill examples teacher_runtime st e :
  (pe_optimization skill examples teacher_runtime st).1 = Raise e
  <-> (runtime_execute teacher_runtime (critique_dialogue skill examples)
         (world st)).1 = Raise e
      \/ exists reasoning w,
           runtime_execute teacher_runtime
             (critique_dialogue skill examples) (world st)
           = (Ok reasoning, w)
           /\ (runtime_execute teacher_runtime
                 (critique_dialogue skill examples
                  ++ [mkMessage "assistant" reasoning;
                      mkMessage "user" (rewrite_request skill)])%list w).1
              = Raise e.
Proof.
  destruct (runtime_execute teacher_runtime
              (critique_dialogue skill examples) (world st))
    as [[reasoning|e1] w] eqn:H.
  - rewrite (pe_optimization_answered _ _ _ _ _ _ H). simpl. split.
    + intros He. right. now exists reasoning, w.
    + intros [He|(r & w' & [= <- <-] & He)]; [discriminate|exact He].
  - rewrite (pe_optimization_first_call_raises _ _ _ _ _ _ H). simpl. split.
    + now left.
    + intros [He|(r & w' & [=] & _)]. exact He.
Qed.
End Refinement.

(** ** Template rendering *)

Section Rendering.
Context {python_format : StrFormat}.
Implicit Types (row : gmap string value) (c : ascii).

Lemma format_scan_literal row c rest :
  Ascii.eqb c "{" = false -> Ascii.eqb c "}" = false ->
  format_scan row None (String c rest)
  = (out ← format_scan row None rest; mret (String c out)).
Proof.
  destruct c as [[] [] [] [] [] [] [] []]; intros H1 H2;
    try discriminate H1; try discriminate H2; reflexivity.
Qed.

Lemma format_scan_open row s :
  match s with String c _ => Ascii.eqb c "{" = false | _ => False end ->
  format_scan row None (String "{" s)
  = format_scan row (Some ("", String "{" s)) s.
Proof.
  destruct s as [|c rest]; [contradiction|].
  destruct c as [[] [] [] [] [] [] [] []]; intros H;
    try discriminate H; reflexivity.
Qed.

Lemma name_start_char c : name_start c = true -> name_char c = true.
Proof. unfold name_char. now intros ->. Qed.

Lemma name_char_not_brace c :
  name_char c = true ->
  Ascii.eqb c "{" = false /\ Ascii.eqb c "}" = false.
Proof.
  destruct c as [[] [] [] [] [] [] [] []]; intros H;
    try discriminate H; split; reflexivity.
Qed.

Lemma append_cons c (a b : string) : String c a +:+ b = String c (a +:+ b).
Proof. reflexivity. Qed.

Lemma append_empty_r (a : string) : a +:+ "" = a.
Proof.
  induction a as [|x a IH]; [reflexivity|]. rewrite append_cons. now f_equal.
Qed.

Lemma append_snoc (a : string) c (b : string) :
  (a +:+ String c "") +:+ b = a +:+ String c b.
Proof.
  induction a as [|x a IH]; [reflexivity|]. rewrite !append_cons. now f_equal.
Qed.

Lemma format_scan_literal_prefix row lit s :
  no_brace lit = true ->
  format_scan row None (lit +:+ s)
  = (out ← format_scan row None s; mret (lit +:+ out)).
Proof.
  induction lit as [|c lit IH].
  - intros _. change ("" +:+ s) with s.
    now destruct (format_scan row None s).
  - intros H. simpl in H.
    apply andb_prop in H as [H Hlit]. apply andb_prop in H as [H1 H2].
    apply negb_true_iff in H1, H2.
    rewrite append_cons, format_scan_literal, IH by assumption.
    now destruct (format_scan row None s).
Qed.

Lemma snoc_not_empty (a : string) c :
  String.eqb (a +:+ String c "") "" = false.
Proof. now destruct a. Qed.

Lemma format_scan_field row acc start f rest :
  String.eqb acc "" = false ->
  forallb name_char (list_ascii_of_string f) = true ->
  format_scan row (Some (acc, start)) (f +:+ String "}" rest)
  = (v ← row_getitem row (acc +:+ f);
     out ← format_scan row None rest;
     mret (py_str v +:+ out)).
Proof.
  revert acc. induction f as [|c f IH]; intros acc Hacc Hf.
  - rewrite append_empty_r. change ("" +:+ String "}" rest) with (String "}" rest).
    simpl. now rewrite Hacc.
  - simpl in Hf. apply andb_prop in Hf as [Hc Hf].
    rewrite append_cons. simpl. rewrite Hacc, Hc.
    rewrite IH by (apply snoc_not_empty || exact Hf).
    now rewrite append_snoc.
Qed.

(** X23: a template that names, after text without braces, a plain field
    name that the row does not have raises [KeyError] on that name, whatever
    follows the field. *)
Lemma format_template_missing_field row lit f rest :
  no_brace lit = true -> plain_name f = true -> row !! f = None ->
  format_template (lit +:+ "{" +:+ f +:+ "}" +:+ rest) row
  = Raise (KeyError f).
Proof.
  intros Hlit Hf Hrow. unfold format_template.
  rewrite format_scan_literal_prefix by assumption.
  destruct f as [|c f]; [discriminate|].
  simpl in Hf. apply andb_prop in Hf as [Hc Hf].
  change ("{" +:+ String c f +:+ "}" +:+ rest)
    with (String "{" (String c (f +:+ String "}" rest))).
  rewrite format_scan_open
    by (apply name_char_not_brace; now apply name_start_char).
  simpl. rewrite Hc.
  rewrite format_scan_field by (reflexivity || exact Hf).
  change ("" +:+ String c "") with (String c "").
  change (String c "" +:+ f) with (String c f).
  unfold row_getitem. now rewrite Hrow.
Qed.
End Rendering.

(** ** Example building *)

Section Building.
Context {python_format : StrFormat}.
Implicit Types (train_skill : Skill) (out : string).
Implicit Types (row : gmap string value) (rows : list (gmap string value)).

Lemma build_examples_app train_skill out pre rest examples :
  build_examples train_skill out (pre ++ rest) examples
  = (built ← build_examples train_skill out pre examples;
     build_examples train_skill out rest built).
Proof.
  revert examples. induction pre as [|row pre IH]; intros examples; simpl.
  - reflexivity.
  - destruct (example_of_row train_skill out row) as [[block|]|e]; simpl;
      [apply IH|apply IH|reflexivity].
Qed.

(** X21: when every record either is skipped or renders, the examples are the
    blocks of the records that are not skipped, in the order of the
    records, after the examples already built. *)
Lemma build_examples_omap train_skill out rows examples
    (block_of : gmap string value -> option string) :
  Forall (fun row => example_of_row train_skill out row = Ok (block_of row))
         rows ->
  build_examples train_skill out rows examples
  = Ok (examples ++ omap block_of rows)%list.
Proof.
  intros H. revert examples.
  induction H as [|row rows Hrow _ IH]; intros examples; simpl.
  - now rewrite app_nil_r.
  - rewrite Hrow. simpl. destruct (block_of row) as [block|].
    + rewrite IH, <- app_assoc. reflexivity.
    + apply IH.
Qed.

Lemma example_of_row_skipped train_skill out row v :
  row !! (out +:+ "__fb") = Some v -> truthy v = false ->
  example_of_row train_skill out row = Ok None.
Proof.
  intros Hv Hf. unfold example_of_row, row_getitem. rewrite Hv. simpl.
  now rewrite Hf.
Qed.

Lemma example_of_row_block train_skill out row v input output :
  row !! (out +:+ "__fb") = Some v -> truthy v = true ->
  format_template (input_template train_skill) row = Ok input ->
  format_template (output_template train_skill) row = Ok output ->
  example_of_row train_skill out row
  = Ok (Some (input +:+ nl +:+ output +:+ nl
              +:+ "Feedback: " +:+ py_str v +:+ nl +:+ nl)).
Proof.
  intros Hv Ht Hi Ho. unfold example_of_row, row_getitem. rewrite Hv. simpl.
  rewrite Ht. simpl. rewrite Hi. simpl. now rewrite Ho.
Qed.

(** A record with feedback whose input template, or whose output template
    once the input template is rendered, does not render. *)
Lemma example_of_row_render_error train_skill out row v e :
  row !! (out +:+ "__fb") = Some v -> truthy v = true ->
  format_template (input_template train_skill) row = Raise e
  \/ (exists input,
        format_template (input_template train_skill) row = Ok input)
     /\ format_template (output_template train_skill) row = Raise e ->
  example_of_row train_skill out row = Raise e.
Proof.
  intros Hv Ht Hr. unfold example_of_row, row_getitem. rewrite Hv. simpl.
  rewrite Ht. simpl.
  destruct Hr as [Hi|[[input Hi] Ho]]; rewrite Hi; simpl;
    [reflexivity|now rewrite Ho].
Qed.

Lemma build_examples_row_error train_skill out pre row post built e :
  build_examples train_skill out pre [] = Ok built ->
  example_of_row train_skill out row = Raise e ->
  build_examples train_skill out (pre ++ row :: post) [] = Raise e.
Proof.
  intros Hpre Hrow. rewrite build_examples_app, Hpre. simpl.
  now rewrite Hrow.
Qed.
End Building.

(** ** The learning loop *)

Section Loop.
Context {World DF Feedback Runtime : Type}.
Context `{!DataFrame DF} `{!Collaborators World DF Feedback Runtime}.
Context {python_format : StrFormat}.
Implicit Types (st : State World Runtime).
Implicit Types (runtime teacher_runtime : Runtime) (t : spec_float).
Implicit Types (batch_size num_feedbacks : option Z).

Lemma call_eq {A} (f : World -> result A * World) st :
  call f st
  = ((f (world st)).1,
     {| self := self st; world := (f (world st)).2;
        teacher_calls := teacher_calls st |}).
Proof. unfold call. now destruct (f (world st)). Qed.

(** Observing changes neither the agent nor the record of teacher calls. *)
Lemma observe_frame runtime batch_size num_feedbacks st :
  self (observe runtime batch_size num_feedbacks st).2 = self st
  /\ teacher_calls (observe runtime batch_size num_feedbacks st).2
     = teacher_calls st.
Proof.
  unfold observe, mbind, M_bind, bind, get. rewrite call_eq.
  destruct (get_data_batch batch_size (world st)) as [[inputs|e] w1];
    cbn [fst snd]; [|now split].
  rewrite call_eq. cbn [self world teacher_calls].
  destruct (skills_apply _ inputs runtime w1) as [[predictions|e] w2];
    cbn [fst snd]; [|now split].
  rewrite call_eq. cbn [self world teacher_calls].
  destruct (get_feedback _ predictions num_feedbacks w2)
    as [[feedback|e] w3]; cbn [fst snd]; now split.
Qed.

(** The loop body after the observation: selection, example building,
    refinement and assignment, or nothing when no skill is selected. *)
Lemma learn_iteration_observe runtime teacher_runtime t batch_size
    num_feedbacks st :
  learn_iteration runtime teacher_runtime t batch_size num_feedbacks st
  = match observe runtime batch_size num_feedbacks st with
    | (Raise e, st1) => (Raise e, st1)
    | (Ok (predictions, feedback), st1) =>
        match select_skill_to_train (self st) feedback t with
        | Raise e => (Raise e, st1)
        | Ok (train_skill_name, train_skill_output, _) =>
            if String.eqb train_skill_name "" then (Ok tt, st1)
            else
              (train_skill ←
                 lift (skillset_getitem (skills (self st)) train_skill_name);
               examples ←
                 lift (build_examples train_skill train_skill_output
                         (analyzed_records predictions feedback) []);
               new_instructions ←
                 pe_optimization train_skill (String.concat nl examples)
                   teacher_runtime;
               assign_instructions train_skill_name new_instructions) st1
        end
    end.
Proof.
  unfold learn_iteration, observe, mbind, M_bind, bind, get. rewrite call_eq.
  destruct (get_data_batch batch_size (world st)) as [[inputs|e] w1];
    cbn [fst snd]; [|reflexivity].
  rewrite call_eq. cbn [self world teacher_calls].
  destruct (skills_apply _ inputs runtime w1) as [[predictions|e] w2];
    cbn [fst snd]; [|reflexivity].
  rewrite call_eq. cbn [self world teacher_calls].
  destruct (get_feedback _ predictions num_feedbacks w2)
    as [[feedback|e] w3]; cbn [fst snd]; [|reflexivity].
  unfold lift at 1, mret, M_ret, ret.
  destruct (select_skill_to_train _ feedback t) as [[[n o] acc]|e];
    [|reflexivity].
  destruct (String.eqb n ""); reflexivity.
Qed.

(** An iteration that raises ends the loop with its exception. *)
Lemma learn_loop_raise runtime teacher_runtime t batch_size num_feedbacks
    n st e st' :
  learn_iteration runtime teacher_runtime t batch_size num_feedbacks st
  = (Raise e, st') ->
  learn_loop runtime teacher_runtime t batch_size num_feedbacks (S n) st
  = (Raise e, st').
Proof. intros H. simpl. exact (bind_raise _ _ _ _ _ H). Qed.

Lemma learn_loop_step runtime teacher_runtime t batch_size num_feedbacks
    n st st' :
  learn_iteration runtime teacher_runtime t batch_size num_feedbacks st
  = (Ok tt, st') ->
  learn_loop runtime teacher_runtime t batch_size num_feedbacks (S n) st
  = learn_loop runtime teacher_runtime t batch_size num_feedbacks n st'.
Proof. intros H. simpl. exact (bind_ok _ _ _ _ _ H). Qed.
End Loop.

Section Iteration.
Context {World DF Feedback Runtime : Type}.
Context `{!DataFrame DF} `{!Collaborators World DF Feedback Runtime}.
Context {python_format : StrFormat}.
Implicit Types (st : State World Runtime).

Variables (runtime teacher_runtime : Runtime) (t : spec_float).
Variables (batch_size num_feedbacks : option Z).
Variables (st st1 : State World Runtime).
Variables (predictions : DF) (feedback : Feedback).

(** The iteration starts in [st]; the environment and the skill set answer,
    with [predictions] and [feedback], and leave the state [st1]. *)
Hypothesis Hobserve :
  observe runtime batch_size num_feedbacks st
  = (Ok (predictions, feedback), st1).

Lemma observed_frame : self st1 = self st /\ teacher_calls st1 = teacher_calls st.
Proof.
  generalize (observe_frame runtime batch_size num_feedbacks st).
  now rewrite Hobserve.
Qed.

(** C3: when every output has an accuracy greater than or equal to the
    threshold, the selector returns the empty triple, and the iteration
    ends there: it succeeds whatever the records hold (no example is built),
    the teacher is not called and the agent, hence every skill's
    instructions, is unchanged. *)
Theorem no_selection_no_training :
  forallb (fun i => at_least (get_accuracy feedback) t i.1)
          (skill_outputs (skills (self st))) = true ->
  select_skill_to_train (self st) feedback t = Ok ("", "", None)
  /\ learn_iteration runtime teacher_runtime t batch_size num_feedbacks st
     = (Ok tt, st1)
  /\ self st1 = self st
  /\ teacher_calls st1 = teacher_calls st.
Proof.
  intros Hall. pose proof (select_none _ _ _ Hall) as Hsel.
  split; [exact Hsel|]. split; [|exact observed_frame].
  now rewrite learn_iteration_observe, Hobserve, Hsel.
Qed.

Section Selected.
Variables (train_skill_name train_skill_output : string).
Variable (accuracy : option spec_float).
Variable (train_skill : Skill).

(** A skill is selected, and the skill set has it. *)
Hypothesis Hselect :
  select_skill_to_train (self st) feedback t
  = Ok (train_skill_name, train_skill_output, accuracy).
Hypothesis Hname : String.eqb train_skill_name "" = false.
Hypothesis Hskill :
  skillset_getitem (skills (self st)) train_skill_name = Ok train_skill.

Lemma learn_iteration_selected :
  learn_iteration runtime teacher_runtime t batch_size num_feedbacks st
  = (examples ←
       lift (build_examples train_skill train_skill_output
               (analyzed_records predictions feedback) []);
     new_instructions ←
       pe_optimization train_skill (String.concat nl examples)
         teacher_runtime;
     assign_instructions train_skill_name new_instructions) st1.
Proof.
  rewrite learn_iteration_observe, Hobserve, Hselect, Hname.
  now erewrite bind_lift_ok by exact Hskill.
Qed.

Lemma learn_iteration_refine examples :
  build_examples train_skill train_skill_output
    (analyzed_records predictions feedback) [] = Ok examples ->
  learn_iteration runtime teacher_runtime t batch_size num_feedbacks st
  = (new_instructions ←
       pe_optimization train_skill (String.concat nl examples)
         teacher_runtime;
     assign_instructions train_skill_name new_instructions) st1.
Proof.
  intros Hbuild. rewrite learn_iteration_selected.
  now erewrite bind_lift_ok by exact Hbuild.
Qed.

(** C1 (amended): when a teacher call of the refinement raises, the
    exception leaves [learn]: the loop stops there, whatever the number
    of iterations left, and the agent, hence the selected skill's
    instructions, is as it was when the iteration started. An answer of
    the teacher, empty or not, is not a failure: it becomes the
    instructions of the selected skill. *)
Theorem refinement_failure_aborts_learning (n : nat) examples :
  build_examples train_skill train_skill_output
    (analyzed_records predictions feedback) [] = Ok examples ->
  (forall e st2,
     pe_optimization train_skill (String.concat nl examples)
       teacher_runtime st1 = (Raise e, st2) ->
     learn_loop runtime teacher_runtime t batch_size num_feedbacks (S n) st
     = (Raise e, st2)
     /\ self st2 = self st)
  /\ (forall new_instructions st2,
        pe_optimization train_skill (String.concat nl examples)
          teacher_runtime st1 = (Ok new_instructions, st2) ->
        exists st3,
          learn_iteration runtime teacher_runtime t batch_size
            num_feedbacks st = (Ok tt, st3)
          /\ instructions_of st3 train_skill_name = Some new_instructions).
Proof.
  intros Hbuild. split.
  - intros e st2 Hpe. split.
    + apply learn_loop_raise. rewrite (learn_iteration_refine _ Hbuild).
      exact (bind_raise _ _ _ _ _ Hpe).
    + destruct (pe_optimization_frame train_skill
                  (String.concat nl examples) teacher_runtime st1)
        as [Hself _].
      rewrite Hpe in Hself. simpl in Hself.
      rewrite Hself. exact (proj1 observed_frame).
  - intros new_instructions st2 Hpe. eexists. split.
    + rewrite (learn_iteration_refine _ Hbuild).
      rewrite (bind_ok _ _ _ _ _ Hpe). reflexivity.
    + unfold instructions_of. cbn [self skills skills_by_name].
      rewrite lookup_alter_eq.
      destruct (pe_optimization_frame train_skill
                  (String.concat nl examples) teacher_runtime st1)
        as [Hself _].
      rewrite Hpe in Hself. simpl in Hself.
      rewrite Hself, (proj1 observed_frame).
      unfold skillset_getitem in Hskill.
      destruct (skills_by_name (skills (self st)) !! train_skill_name);
        [reflexivity|discriminate].
Qed.

(** C6 (amended): when, for a record with feedback, a template of the
    selected skill does not render (in particular when it names a field
    the record lacks, [format_template_missing_field]), the exception
    leaves the example loop and [learn]: the teacher is not called, the
    agent is unchanged, and the loop stops there, whatever the number of
    iterations left. *)
Theorem template_error_aborts_learning (n : nat) pre row post built v e :
  analyzed_records predictions feedback = (pre ++ row :: post)%list ->
  build_examples train_skill train_skill_output pre [] = Ok built ->
  row !! (train_skill_output +:+ "__fb") = Some v ->
  truthy v = true ->
  format_template (input_template train_skill) row = Raise e
  \/ (exists input,
        format_template (input_template train_skill) row = Ok input)
     /\ format_template (output_template train_skill) row = Raise e ->
  learn_loop runtime teacher_runtime t batch_size num_feedbacks (S n) st
  = (Raise e, st1)
  /\ self st1 = self st
  /\ teacher_calls st1 = teacher_calls st.
Proof.
  intros Hrows Hpre Hv Ht Hrender. split; [|exact observed_frame].
  apply learn_loop_raise. rewrite learn_iteration_selected.
  apply bind_lift_raise. rewrite Hrows.
  eapply build_examples_row_error; [exact Hpre|].
  eapply example_of_row_render_error; eassumption.
Qed.

(** C9: when the example loop ends with no example, the refinement is
    run all the same, on the empty examples text: the teacher is called
    on the critique dialogue built from it, and what follows is the
    refinement and the assignment as in any other iteration. *)
Theorem refinement_attempted_without_examples :
  build_examples train_skill train_skill_output
    (analyzed_records predictions feedback) [] = Ok [] ->
  learn_iteration runtime teacher_runtime t batch_size num_feedbacks st
  = (new_instructions ← pe_optimization train_skill "" teacher_runtime;
     assign_instructions train_skill_name new_instructions) st1
  /\ exists rest,
       teacher_calls
         (learn_iteration runtime teacher_runtime t batch_size
            num_feedbacks st).2
       = (teacher_calls st ++ critique_dialogue train_skill "" :: rest)%list.
Proof.
  intros Hbuild. rewrite (learn_iteration_refine _ Hbuild).
  split; [reflexivity|].
  change (String.concat nl []) with "".
  destruct (pe_optimization_frame train_skill "" teacher_runtime st1)
    as [_ [rest Hcalls]].
  exists rest. rewrite <- (proj2 observed_frame), <- Hcalls.
  unfold mbind, M_bind, bind.
  now destruct (pe_optimization train_skill "" teacher_runtime st1)
    as [[new_instructions|e] st2].
Qed.
End Selected.
End Iteration.

(** ** Construction *)

Section Construction.
Context {Runtime : Type}.
Variable repr_str : string -> string.
Implicit Types (self : Agent Runtime).



Lemma dict_mem_get {V} (d : Dict.t V) k :
  Dict.mem k d = true -> exists v, Dict.get d k = Some v.
Proof.
  unfold Dict.mem, Dict.keys.
  induction d as [|[k' v] d IH]; simpl; [discriminate|].
  destruct (String.eqb k k'); [now exists v|exact IH].
Qed.

(** X6: nothing is left for the first use: on an agent that passed the
    validator, both defaults resolve. *)
Lemma verified_defaults_resolve self printed agent :
  verify_input_parameters repr_str self = (printed, Ok agent) ->
  (exists r, get_runtime agent None = Ok r)
  /\ (exists r, get_teacher_runtime agent None = Ok r).
Proof.
  unfold verify_input_parameters, get_runtime, get_teacher_runtime.
  destruct (runtimes self) as [rs|] eqn:Hrs; [|discriminate].
  destruct (Dict.mem (default_runtime self) rs) eqn:Hr; [|discriminate].
  destruct (teacher_runtimes self) as [ts|] eqn:Hts; [|discriminate].
  destruct (Dict.mem (default_teacher_runtime self) ts) eqn:Ht;
    [|discriminate].
  simpl. intros [= _ <-]. rewrite Hrs, Hts. simpl. rewrite Hr, Ht. simpl.
  destruct (dict_mem_get _ _ Hr) as [r ->].
  destruct (dict_mem_get _ _ Ht) as [r' ->]. eauto.
Qed.
End Construction.

(** ** The properties on the concrete setting *)

Section Examples.
Import Scenario.

(** The refinement of the scenario, with a teacher that answers both
    calls. *)
Lemma pe_optimization_two_calls_witness :
  exists first request,
    map role first = ["system"; "user"; "assistant"; "user"]
    /\ role request = "user"
    /\ pe_optimization summarize "" "teacher"
         (start skillset
            (world_with wrong wrong f0_5 [Ok "critique"; Ok "New prompt"]))
       = (Ok "New prompt",
          {| self := agent skillset;
             world := world_with wrong wrong f0_5 [];
             teacher_calls :=
               [first;
                (first ++ [mkMessage "assistant" "critique"; request])%list]
          |}).
Proof.
  destruct (pe_optimization_two_calls
              (World := World) (DF := Table) (Feedback := Feedback)
              (Runtime := string))
    as (opening & t1 & t2 & t3 & t4 & t5 & r1 & r2 & Hroles & Hcalls).
  destruct (Hcalls summarize "" "teacher"
              (start skillset
                 (world_with wrong wrong f0_5 [Ok "critique"; Ok "New prompt"])))
    as [Htwo _].
  pose proof (Htwo "critique" (world_with wrong wrong f0_5 [Ok "New prompt"])
                eq_refl) as Hrun.
  eexists. eexists. split; [|split; [|exact Hrun]].
  - rewrite map_app, Hroles. reflexivity.
  - reflexivity.
Defined.

(** C4 as stated fails. The teacher raises on the first call: the
    refinement raises, a single call has been made and the reply that the
    teacher held for a second call is still there. *)
Lemma pe_optimization_single_call_on_failure :
  let run :=
    pe_optimization summarize "" "teacher"
      (start skillset
         (world_with wrong wrong f0_5 [Raise timeout; Ok "New prompt"])) in
  run.1 = Raise timeout
  /\ length (teacher_calls run.2) = 1
  /\ script (world run.2) = [Ok "New prompt"].
Proof. vm_compute. repeat split. Qed.

Lemma no_selection_no_training_witness :
  let st := start skillset (world_with wrong wrong f0_95 []) in
  exists st1,
    select_skill_to_train (self st) (env_feedback (world st)) f0_9
    = Ok ("", "", None)
    /\ learn_iteration "worker" "teacher" f0_9 None None st = (Ok tt, st1)
    /\ self st1 = self st
    /\ teacher_calls st1 = teacher_calls st.
Proof.
  eexists.
  eapply (no_selection_no_training "worker" "teacher" f0_9 None None
            (start skillset (world_with wrong wrong f0_95 [])));
    reflexivity.
Defined.

Lemma refinement_failure_aborts_learning_witness :
  let st := start skillset (world_with wrong wrong f0_5 [Raise timeout]) in
  exists st2,
    learn_loop "worker" "teacher" f0_9 None None 3 st = (Raise timeout, st2)
    /\ self st2 = self st.
Proof.
  intros st.
  edestruct (refinement_failure_aborts_learning "worker" "teacher" f0_9
               None None st) as [Hraise _]; [reflexivity..|].
  eexists. apply (Hraise timeout). reflexivity.
Defined.
(** C1 as stated fails. With three iterations and a teacher that times
    out on its first call, [learn] raises the teacher's exception after a
    single batch has been served: the failure is raised again and the
    remaining iterations do not run. With a teacher that answers the
    rewrite request with the empty string, the instructions are replaced
    by the empty string. *)
Lemma learn_reraises_refinement_failure :
  (let run :=
     learn 3 f0_9 None None None None
       (start skillset (world_with wrong wrong f0_5 [Raise timeout])) in
   run.1 = Raise timeout
   /\ served (world run.2) = 1
   /\ instructions_of run.2 "summarize" = Some "Summarize the text.")
  /\ (let st :=
        start skillset (world_with wrong wrong f0_5 [Ok "critique"; Ok ""]) in
      let run := learn 1 f0_9 None None None None st in
      run.1 = Ok tt
      /\ instructions_of st "summarize" = Some "Summarize the text."
      /\ instructions_of run.2 "summarize" = Some "").
Proof. vm_compute. repeat split. Qed.

Lemma template_error_aborts_learning_witness :
  let st := start headline_skillset (world_with wrong wrong f0_5 []) in
  exists st1,
    learn_loop "worker" "teacher" f0_9 None None 3 st
    = (Raise (KeyError "headline"), st1)
    /\ self st1 = self st
    /\ teacher_calls st1 = teacher_calls st.
Proof.
  intros st. eexists.
  eapply template_error_aborts_learning
    with (pre := []) (train_skill := headliner);
    [reflexivity..|left; reflexivity].
Defined.

(** C6 as stated fails. The input template names a field that no record
    has: with three iterations, [learn] raises the [KeyError] after a single
    batch has been served, so the remaining iterations do not run. *)
Lemma learn_aborted_by_template_error :
  let run :=
    learn 3 f0_9 None None None None
      (start headline_skillset (world_with wrong wrong f0_5 [])) in
  format_template (input_template headliner)
    (list_to_map [("summary__fb", wrong); ("text", PyStr "a b c");
                  ("summary", PyStr "a")])
  = Raise (KeyError "headline")
  /\ run.1 = Raise (KeyError "headline")
  /\ served (world run.2) = 1
  /\ teacher_calls run.2 = [].
Proof. vm_compute. repeat split. Qed.

Lemma refinement_attempted_without_examples_witness :
  let st :=
    start skillset
      (world_with PyNone (PyStr "") f0_5 [Ok "critique"; Ok "New prompt"]) in
  exists st1 rest,
    learn_iteration "worker" "teacher" f0_9 None None st
    = (new_instructions ← pe_optimization summarize "" "teacher";
       assign_instructions "summarize" new_instructions) st1
    /\ teacher_calls (learn_iteration "worker" "teacher" f0_9 None None st).2
       = (teacher_calls st ++ critique_dialogue summarize "" :: rest)%list.
Proof.
  intros st.
  edestruct (refinement_attempted_without_examples "worker" "teacher" f0_9
               None None st) as [Heq [rest Hcalls]]; [reflexivity..|].
  eexists. exists rest. split; [exact Heq|exact Hcalls].
Defined.



(** C5 fails on a record whose feedback is NaN, the marker of a missing
    entry that the comment of the example loop says is skipped: NaN is a
    true value, the record is kept and yields a block whose feedback reads
    [nan]. Two records, the second one without feedback, give two
    examples. *)
Theorem build_examples_keeps_nan_feedback :
  build_examples summarize "summary"
    (analyzed_records predicted
       (feedback_of [wrong; PyNaN] {[ "summary" := f0_5 ]})) []
  = Ok ["Text: a b c" +:+ nl +:+ "Summary: a" +:+ nl
        +:+ "Feedback: Prediction is incorrect." +:+ nl +:+ nl;
        "Text: d e f" +:+ nl +:+ "Summary: d" +:+ nl
        +:+ "Feedback: nan" +:+ nl +:+ nl].
Proof. reflexivity. Qed.

(** With [None] in place of NaN the record is skipped. *)
Lemma build_examples_skips_none_feedback :
  build_examples summarize "summary"
    (analyzed_records predicted
       (feedback_of [wrong; PyNone] {[ "summary" := f0_5 ]})) []
  = Ok ["Text: a b c" +:+ nl +:+ "Summary: a" +:+ nl
        +:+ "Feedback: Prediction is incorrect." +:+ nl +:+ nl].
Proof. reflexivity. Qed.

(** Scenario A of the specification, end to end. *)
Lemma learn_scenario_success :
  let run :=
    learn 1 f0_9 None None None None
      (start skillset
         (world_with wrong wrong f0_5 [Ok "critique"; Ok "New prompt"])) in
  run.1 = Ok tt
  /\ instructions_of run.2 "summarize" = Some "New prompt"
  /\ length (teacher_calls run.2) = 2.
Proof. vm_compute. repeat split. Qed.
End Examples.

(** * Further properties *)

(** ** What the selector can return *)

Section SelectionOutcome.
Context {World DF Feedback Runtime : Type}.
Context `{!Collaborators World DF Feedback Runtime}.
Implicit Types (accuracy : gmap string spec_float) (t : spec_float).
Implicit Types (items pre post : list (string * string)).

Lemma select_loop_outcome accuracy t items :
  match select_loop accuracy t items with
  | Ok (s, o, None) =>
      s = "" /\ o = "" /\ forallb (fun i => passes accuracy t i.1) items = true
  | Ok (s, o, Some a) =>
      exists pre post,
        items = (pre ++ (o, s) :: post)%list
        /\ forallb (fun i => passes accuracy t i.1) pre = true
        /\ accuracy !! o = Some a /\ float_lt a t = true
  | Raise e =>
      exists pre o s post,
        items = (pre ++ (o, s) :: post)%list
        /\ forallb (fun i => passes accuracy t i.1) pre = true
        /\ accuracy !! o = None /\ e = KeyError o
  end.
Proof.
  induction items as [|[o s] items IH]; simpl; [easy|].
  unfold accuracy_getitem. destruct (accuracy !! o) as [a|] eqn:Ha; simpl.
  - destruct (float_lt a t) eqn:Hlt.
    + exists [], items. now rewrite Ha.
    + assert (passes accuracy t o = true) as Hp.
      { unfold passes. now rewrite Ha, Hlt. }
      destruct (select_loop accuracy t items) as [[[s' o'] [a'|]]|e].
      * destruct IH as (pre & post & -> & Hpre & Ho & Hlt').
        exists ((o, s) :: pre), post. simpl. now rewrite Hp.
      * destruct IH as (-> & -> & Hall). simpl. now rewrite Hp.
      * destruct IH as (pre & o' & s' & post & -> & Hpre & Ho & ->).
        exists ((o, s) :: pre), o', s', post. simpl. now rewrite Hp.
  - now exists [], o, s, items.
Qed.

(** X1: a triple returned with an accuracy names an entry of the output
    mapping whose accuracy is the one returned and is strictly below the
    threshold, every entry before it having an accuracy that is not below
    the threshold; a triple returned without an accuracy is the empty one,
    and then no output at all is below the threshold or unmeasured. *)
Theorem select_result_sound (self : Agent Runtime) (feedback : Feedback) t
    s o acc :
  select_skill_to_train self feedback t = Ok (s, o, acc) ->
  match acc with
  | Some a =>
      exists pre post,
        skill_outputs (skills self) = (pre ++ (o, s) :: post)%list
        /\ forallb (fun i => passes (get_accuracy feedback) t i.1) pre = true
        /\ get_accuracy feedback !! o = Some a
        /\ float_lt a t = true
  | None =>
      s = "" /\ o = ""
      /\ forallb (fun i => passes (get_accuracy feedback) t i.1)
           (skill_outputs (skills self)) = true
  end.
Proof.
  unfold select_skill_to_train. intros H.
  generalize (select_loop_outcome (get_accuracy feedback) t
                (skill_outputs (skills self))).
  rewrite H. now destruct acc.
Qed.

(** X3: an output whose accuracy is NaN is passed over, whatever the
    threshold: the selection is the one made on the other entries. *)
Theorem select_skips_nan (self : Agent Runtime) (feedback : Feedback) t
    pre o s post :
  skill_outputs (skills self) = (pre ++ (o, s) :: post)%list ->
  forallb (fun i => passes (get_accuracy feedback) t i.1) pre = true ->
  get_accuracy feedback !! o = Some S754_nan ->
  select_skill_to_train self feedback t
  = select_loop (get_accuracy feedback) t post.
Proof.
  intros Hitems Hpre Ho. unfold select_skill_to_train.
  rewrite Hitems, select_loop_skip by exact Hpre.
  change ((o, s) :: post) with ([(o, s)] ++ post)%list.
  apply select_loop_skip. simpl. unfold passes. rewrite Ho.
  now destruct t.
Qed.
End SelectionOutcome.

(** ** Runtime lookup and validation *)

Section Lookup.
Context {Runtime : Type}.
Variable repr_str : string -> string.
Implicit Types (self : Agent Runtime).

Lemma dict_mem_false_get {V} (d : Dict.t V) k :
  Dict.mem k d = false -> Dict.get d k = None.
Proof.
  unfold Dict.mem, Dict.keys.
  induction d as [|[k' v] d IH]; simpl; [reflexivity|].
  destruct (String.eqb k k'); [discriminate|exact IH].
Qed.

(** X4: a runtime asked by name is the one the mapping holds under that
    name, and a name the mapping does not hold raises the [ValueError] that
    quotes it; the indexing that follows the membership test never raises.
    The same holds of the teacher runtimes. *)
Theorem runtime_lookup self rs ts n :
  runtimes self = Some rs ->
  teacher_runtimes self = Some ts ->
  get_runtime self (Some n)
  = match Dict.get rs n with
    | Some r => Ok r
    | None =>
        Raise (ValueError ("Runtime " +:+ dq +:+ n +:+ dq +:+ " not found."))
    end
  /\ get_teacher_runtime self (Some n)
     = match Dict.get ts n with
       | Some r => Ok r
       | None =>
           Raise (ValueError
             ("Teacher Runtime " +:+ dq +:+ n +:+ dq +:+ " not found."))
       end.
Proof.
  intros Hrs Hts. unfold get_runtime, get_teacher_runtime.
  rewrite Hrs, Hts. simpl. split.
  - destruct (Dict.mem n rs) eqn:Hm; simpl.
    + now destruct (dict_mem_get _ _ Hm) as [r ->].
    + now rewrite (dict_mem_false_get _ _ Hm).
  - destruct (Dict.mem n ts) eqn:Hm; simpl.
    + now destruct (dict_mem_get _ _ Hm) as [r ->].
    + now rewrite (dict_mem_false_get _ _ Hm).
Qed.

(** X5: the validator accepts an agent exactly when both mappings are
    dictionaries that hold their default name; it then returns the agent as
    it is and prints nothing. *)
Theorem verify_input_parameters_accepts self printed agent :
  verify_input_parameters repr_str self = (printed, Ok agent)
  <-> printed = [] /\ agent = self
      /\ exists rs ts,
           runtimes self = Some rs /\ teacher_runtimes self = Some ts
           /\ Dict.mem (default_runtime self) rs = true
           /\ Dict.mem (default_teacher_runtime self) ts = true.
Proof.
  unfold verify_input_parameters. split.
  - destruct (runtimes self) as [rs|]; [|discriminate].
    destruct (Dict.mem (default_runtime self) rs) eqn:Hr; [|discriminate].
    destruct (teacher_runtimes self) as [ts|]; [|discriminate].
    destruct (Dict.mem (default_teacher_runtime self) ts) eqn:Ht;
      [|discriminate].
    simpl. intros [= <- <-]. repeat split. now exists rs, ts.
  - intros (-> & -> & rs & ts & -> & -> & -> & ->). reflexivity.
Qed.

End Lookup.

(** ** What a refinement and an iteration change *)

Section Effects.
Context {World DF Feedback Runtime : Type}.
Context `{!DataFrame DF} `{!Collaborators World DF Feedback Runtime}.
Context {python_format : StrFormat}.
Implicit Types (st : State World Runtime) (a b c : Agent Runtime).
Implicit Types (runtime teacher_runtime : Runtime) (t : spec_float).
Implicit Types (batch_size num_feedbacks : option Z).

Lemma same_but_instructions_refl a : same_but_instructions a a.
Proof. repeat split. Qed.

Lemma same_but_instructions_trans a b c :
  same_but_instructions a b -> same_but_instructions b c ->
  same_but_instructions a c.
Proof.
  intros (H1 & H2 & H3 & H4 & H5 & H6) (G1 & G2 & G3 & G4 & G5 & G6).
  repeat split; first [congruence | intros k; now rewrite H6, G6].
Qed.

Lemma pe_optimization_calls (skill : Skill) (examples : string)
    teacher_runtime st :
  exists extra,
    teacher_calls (pe_optimization skill examples teacher_runtime st).2
    = (teacher_calls st ++ extra)%list
    /\ (length extra = 2
        \/ length extra = 1
           /\ exists e,
                (pe_optimization skill examples teacher_runtime st).1
                = Raise e).
Proof.
  destruct (runtime_execute teacher_runtime
              (critique_dialogue skill examples) (world st))
    as [[reasoning|e] w] eqn:H.
  - rewrite (pe_optimization_answered _ _ _ _ _ _ H).
    cbn [snd teacher_calls]. eexists. split; [reflexivity|]. now left.
  - rewrite (pe_optimization_first_call_raises _ _ _ _ _ _ H).
    cbn [fst snd teacher_calls]. eexists. split; [reflexivity|].
    right. split; [reflexivity|]. now exists e.
Qed.

(** X7: a refinement calls the teacher once or twice, and once only when
    that call raises; the dialogues are added to the record of calls in the
    order of the calls. *)
Theorem pe_optimization_call_count (skill : Skill) (examples : string)
    teacher_runtime st :
  exists extra,
    teacher_calls (pe_optimization skill examples teacher_runtime st).2
    = (teacher_calls st ++ extra)%list
    /\ (length extra = 2
        \/ length extra = 1
           /\ exists e,
                (pe_optimization skill examples teacher_runtime st).1
                = Raise e).
Proof. apply pe_optimization_calls. Qed.

(** What an iteration leaves behind: the skills are those it started with
    but for the instructions of one name at most, and at most two dialogues
    are added to the record of teacher calls. *)
Lemma learn_iteration_effect runtime teacher_runtime t batch_size
    num_feedbacks st :
  let st' :=
    (learn_iteration runtime teacher_runtime t batch_size num_feedbacks st).2 in
  same_but_instructions (self st) (self st')
  /\ (exists k, forall j, j <> k ->
        skills_by_name (skills (self st')) !! j
        = skills_by_name (skills (self st)) !! j)
  /\ exists extra,
       teacher_calls st' = (teacher_calls st ++ extra)%list
       /\ length extra <= 2.
Proof.
  assert (forall st1, self st1 = self st ->
            teacher_calls st1 = teacher_calls st ->
            same_but_instructions (self st) (self st1)
            /\ (exists k : string, forall j, j <> k ->
                  skills_by_name (skills (self st1)) !! j
                  = skills_by_name (skills (self st)) !! j)
            /\ exists extra,
                 teacher_calls st1 = (teacher_calls st ++ extra)%list
                 /\ length extra <= 2) as Hsame.
  { intros st1 -> ->. split; [apply same_but_instructions_refl|].
    split; [now exists ""|]. exists []. rewrite app_nil_r. simpl. split; [easy|lia]. }
  intros st'. subst st'. rewrite learn_iteration_observe.
  pose proof (observe_frame runtime batch_size num_feedbacks st) as [Hs Hc].
  destruct (observe runtime batch_size num_feedbacks st)
    as [[[predictions feedback]|e] st1]; cbn [snd] in *;
    [|now apply Hsame].
  destruct (select_skill_to_train (self st) feedback t)
    as [[[name out] acc]|e]; cbn [snd]; [|now apply Hsame].
  destruct (String.eqb name ""); cbn [snd]; [now apply Hsame|].
  unfold mbind, M_bind, bind, lift.
  destruct (skillset_getitem (skills (self st)) name) as [train_skill|e];
    cbn [snd]; [|now apply Hsame].
  destruct (build_examples train_skill out _ []) as [examples|e];
    cbn [snd]; [|now apply Hsame].
  pose proof (pe_optimization_frame train_skill (String.concat nl examples)
                teacher_runtime st1) as [Hself _].
  pose proof (pe_optimization_calls train_skill
                (String.concat nl examples) teacher_runtime st1)
    as (extra & Hcalls & Hlen).
  assert (length extra <= 2) as Hle by (destruct Hlen as [->|[-> _]]; lia).
  destruct (pe_optimization train_skill (String.concat nl examples)
              teacher_runtime st1) as [[new_instructions|e] st2];
    cbn [fst snd] in *.
  - unfold assign_instructions, modify. cbn [snd self skills skills_by_name
      skill_outputs runtimes teacher_runtimes default_runtime
      default_teacher_runtime teacher_calls].
    rewrite Hself, Hs, Hcalls, Hc. split; [|split].
    + repeat split. intros k. cbn [skills skills_by_name].
      rewrite lookup_alter.
      destruct (decide (name = k)) as [->|]; [|reflexivity].
      now destruct (skills_by_name (skills (self st)) !! k).
    + exists name. intros j Hj. cbn [skills skills_by_name].
      now rewrite lookup_alter_ne.
    + now exists extra.
  - rewrite Hself, Hs, Hcalls, Hc. split; [apply same_but_instructions_refl|].
    split; [now exists ""|]. now exists extra.
Qed.

(** X9: whatever the collaborators do, an iteration changes the skill stored
    under one name at most. *)
Theorem learn_iteration_changes_one_skill runtime teacher_runtime t batch_size
    num_feedbacks st :
  exists k, forall j, j <> k ->
    skills_by_name
      (skills (self (learn_iteration runtime teacher_runtime t batch_size
                       num_feedbacks st).2)) !! j
    = skills_by_name (skills (self st)) !! j.
Proof. apply learn_iteration_effect. Qed.

Lemma learn_loop_effect runtime teacher_runtime t batch_size num_feedbacks
    n st :
  let st' :=
    (learn_loop runtime teacher_runtime t batch_size num_feedbacks n st).2 in
  same_but_instructions (self st) (self st')
  /\ exists extra,
       teacher_calls st' = (teacher_calls st ++ extra)%list
       /\ length extra <= 2 * n.
Proof.
  revert st. induction n as [|n IH]; intros st; cbn zeta.
  - split; [apply same_but_instructions_refl|]. exists [].
    simpl. now rewrite app_nil_r.
  - simpl learn_loop. unfold mbind, M_bind, bind.
    pose proof (learn_iteration_effect runtime teacher_runtime t batch_size
                  num_feedbacks st) as (Hsame & _ & extra & Hcalls & Hlen).
    cbn zeta in *.
    destruct (learn_iteration runtime teacher_runtime t batch_size
                num_feedbacks st) as [[[]|e] st1]; cbn [snd] in *.
    + destruct (IH st1) as (Hsame' & extra' & Hcalls' & Hlen').
      split; [now apply same_but_instructions_trans with (self st1)|].
      exists (extra ++ extra')%list.
      rewrite Hcalls', Hcalls, <- app_assoc, length_app.
      split; [reflexivity|lia].
    + split; [exact Hsame|]. exists extra. split; [exact Hcalls|lia].
Qed.

(** X10: [learn] rewrites instructions and nothing else. Whatever the
    collaborators do and however it ends, the agent it leaves has the same
    runtimes, defaults and output mapping, the same skill names, and skills
    with the same name and templates. *)
Theorem learn_changes_instructions_only (learning_iterations : Z) t batch_size
    num_feedbacks (runtime teacher_runtime : option string) st :
  same_but_instructions (self st)
    (self (learn learning_iterations t batch_size num_feedbacks runtime
             teacher_runtime st).2).
Proof.
  unfold learn, mbind, M_bind, bind, get, lift.
  destruct (get_runtime (self st) runtime) as [r|e];
    [|apply same_but_instructions_refl].
  destruct (get_teacher_runtime (self st) teacher_runtime) as [r'|e];
    [|apply same_but_instructions_refl].
  apply learn_loop_effect.
Qed.

(** X11: [learn] calls the teacher at most twice per iteration asked, and
    only adds to the record of calls. *)
Theorem learn_teacher_calls_bound (learning_iterations : Z) t batch_size
    num_feedbacks (runtime teacher_runtime : option string) st :
  exists extra,
    teacher_calls (learn learning_iterations t batch_size num_feedbacks
                     runtime teacher_runtime st).2
    = (teacher_calls st ++ extra)%list
    /\ length extra <= 2 * Z.to_nat learning_iterations.
Proof.
  unfold learn, mbind, M_bind, bind, get, lift.
  destruct (get_runtime (self st) runtime) as [r|e];
    [|exists []; simpl; rewrite app_nil_r; split; [reflexivity|lia]].
  destruct (get_teacher_runtime (self st) teacher_runtime) as [r'|e];
    [|exists []; simpl; rewrite app_nil_r; split; [reflexivity|lia]].
  apply learn_loop_effect.
Qed.
End Effects.

(** ** [run] *)

Section Run.
Context {World DF Feedback Runtime : Type}.
Context `{!DataFrame DF} `{!Collaborators World DF Feedback Runtime}.
Implicit Types (st : State World Runtime) (input : DF).

(** X12: [run] changes neither the agent nor the record of teacher calls,
    whether it returns predictions or raises. *)
Theorem run_frame (input : option DF) (runtime : option string) st :
  self (run input runtime st).2 = self st
  /\ teacher_calls (run input runtime st).2 = teacher_calls st.
Proof.
  unfold run, mbind, M_bind, bind, get, lift, mret, M_ret, ret.
  destruct input as [input|].
  - destruct (get_runtime (self st) runtime) as [r|e]; [|now split].
    rewrite call_eq.
    destruct (skills_apply (skills (self st)) input r (world st))
      as [[predictions|e] w]; now split.
  - rewrite call_eq.
    destruct (get_data_batch None (world st)) as [[input|e] w];
      cbn [fst snd self]; [|now split].
    destruct (get_runtime (self st) runtime) as [r|e]; [|now split].
    rewrite call_eq. cbn [world self teacher_calls].
    destruct (skills_apply (skills (self st)) input r w)
      as [[predictions|e] w']; now split.
Qed.

(** X13: when the runtime does not resolve, [run] raises the lookup's
    exception. With a dataset it does so before any collaborator is called;
    without one the environment has already served a batch, which is lost. *)
Theorem run_unresolved_runtime (runtime : option string) st e :
  get_runtime (self st) runtime = Raise e ->
  (forall input, run (Some input) runtime st = (Raise e, st))
  /\ (forall batch w,
        get_data_batch None (world st) = (Ok batch, w) ->
        run None runtime st
        = (Raise e,
           {| self := self st; world := w;
              teacher_calls := teacher_calls st |})).
Proof.
  intros Hrt. split.
  - intros input.
    unfold run, mbind, M_bind, bind, get, lift, mret, M_ret, ret.
    now rewrite Hrt.
  - intros batch w Hbatch.
    unfold run, mbind, M_bind, bind, get, lift. rewrite call_eq, Hbatch.
    cbn [fst snd self]. now rewrite Hrt.
Qed.

End Run.

(** ** Edges of [learn] *)

Section Edges.
Context {World DF Feedback Runtime : Type}.
Context `{!DataFrame DF} `{!Collaborators World DF Feedback Runtime}.
Context {python_format : StrFormat}.
Implicit Types (st : State World Runtime) (t : spec_float).
Implicit Types (batch_size num_feedbacks : option Z).

(** X14: when the runtime or, the runtime resolving, the teacher runtime
    does not resolve, [learn] raises the lookup's exception before any
    collaborator is called, whatever the number of iterations. *)
Theorem learn_unresolved_runtime (learning_iterations : Z) t batch_size
    num_feedbacks (runtime teacher_runtime : option string) st e :
  get_runtime (self st) runtime = Raise e
  \/ (exists r, get_runtime (self st) runtime = Ok r)
     /\ get_teacher_runtime (self st) teacher_runtime = Raise e ->
  learn learning_iterations t batch_size num_feedbacks runtime
    teacher_runtime st
  = (Raise e, st).
Proof.
  unfold learn, mbind, M_bind, bind, get, lift.
  intros [->|[[r ->] ->]]; reflexivity.
Qed.

(** X15: with a number of iterations that is zero or negative and runtimes
    that resolve, [learn] returns without calling a collaborator or changing
    anything. *)
Theorem learn_no_iteration (learning_iterations : Z) t batch_size
    num_feedbacks (runtime teacher_runtime : option string) st r r' :
  (learning_iterations <= 0)%Z ->
  get_runtime (self st) runtime = Ok r ->
  get_teacher_runtime (self st) teacher_runtime = Ok r' ->
  learn learning_iterations t batch_size num_feedbacks runtime
    teacher_runtime st
  = (Ok tt, st).
Proof.
  intros Hz Hr Hr'. unfold learn, mbind, M_bind, bind, get, lift.
  rewrite Hr, Hr'. replace (Z.to_nat learning_iterations) with 0 by lia.
  reflexivity.
Qed.

Section Observed.
Variables (runtime teacher_runtime : Runtime) (t : spec_float).
Variables (batch_size num_feedbacks : option Z).
Variables (st st1 : State World Runtime).
Variables (predictions : DF) (feedback : Feedback).

Hypothesis Hobserve :
  observe runtime batch_size num_feedbacks st
  = (Ok (predictions, feedback), st1).

(** X16: when the output mapping names, for the output selected, a skill
    that the skill set does not hold, the lookup of the skill raises
    [KeyError]: the teacher is not called, the agent is unchanged and the
    loop stops there. *)
Theorem learn_selected_skill_missing (n : nat) name out acc :
  select_skill_to_train (self st) feedback t = Ok (name, out, acc) ->
  String.eqb name "" = false ->
  skills_by_name (skills (self st)) !! name = None ->
  learn_loop runtime teacher_runtime t batch_size num_feedbacks (S n) st
  = (Raise (KeyError name), st1)
  /\ self st1 = self st
  /\ teacher_calls st1 = teacher_calls st.
Proof.
  intros Hsel Hname Hnone.
  split; [|generalize (observe_frame runtime batch_size num_feedbacks st);
           now rewrite Hobserve].
  apply learn_loop_raise.
  rewrite learn_iteration_observe, Hobserve, Hsel, Hname.
  apply bind_lift_raise. unfold skillset_getitem. now rewrite Hnone.
Qed.

(** X17: the empty skill name is read as no selection. When the first
    output that is below the threshold is owned by a skill whose name is the
    empty string, the iteration ends as if every output had passed: no
    example is built, the teacher is not called and nothing is changed. *)
Theorem learn_iteration_skips_unnamed_skill pre out post a :
  skill_outputs (skills (self st)) = (pre ++ (out, "") :: post)%list ->
  forallb (fun i => passes (get_accuracy feedback) t i.1) pre = true ->
  get_accuracy feedback !! out = Some a ->
  float_lt a t = true ->
  select_skill_to_train (self st) feedback t = Ok ("", out, Some a)
  /\ learn_iteration runtime teacher_runtime t batch_size num_feedbacks st
     = (Ok tt, st1).
Proof.
  intros Hitems Hpre Ha Hlt.
  assert (select_skill_to_train (self st) feedback t = Ok ("", out, Some a))
    as Hsel.
  { unfold select_skill_to_train.
    rewrite Hitems, select_loop_skip by exact Hpre.
    now apply select_loop_hit. }
  split; [exact Hsel|].
  now rewrite learn_iteration_observe, Hobserve, Hsel.
Qed.

(** X18: when the records lack the column of the feedback on the selected
    output, the first record raises [KeyError] on that column, whatever the
    templates are: the teacher is not called, the agent is unchanged and the
    loop stops there. *)
Theorem learn_feedback_column_missing (n : nat) name out acc train_skill
    row rows :
  select_skill_to_train (self st) feedback t = Ok (name, out, acc) ->
  String.eqb name "" = false ->
  skillset_getitem (skills (self st)) name = Ok train_skill ->
  analyzed_records predictions feedback = row :: rows ->
  row !! (out +:+ "__fb") = None ->
  learn_loop runtime teacher_runtime t batch_size num_feedbacks (S n) st
  = (Raise (KeyError (out +:+ "__fb")), st1)
  /\ self st1 = self st
  /\ teacher_calls st1 = teacher_calls st.
Proof.
  intros Hsel Hname Hskill Hrows Hrow.
  split; [|generalize (observe_frame runtime batch_size num_feedbacks st);
           now rewrite Hobserve].
  apply learn_loop_raise.
  rewrite learn_iteration_observe, Hobserve, Hsel, Hname.
  erewrite bind_lift_ok by exact Hskill.
  apply bind_lift_raise. rewrite Hrows. simpl.
  unfold example_of_row, row_getitem. now rewrite Hrow.
Qed.
End Observed.
End Edges.

(** ** A run of the loop in which nothing needs training *)

Section Passing.
Context {World DF Feedback Runtime : Type}.
Context `{!DataFrame DF} `{!Collaborators World DF Feedback Runtime}.
Context {python_format : StrFormat}.
Implicit Types (st : State World Runtime).

Variables (runtime teacher_runtime : Runtime) (t : spec_float).
Variables (batch_size num_feedbacks : option Z).
Variable agent : Agent Runtime.

(** An observation that does not raise and reports every output at or above
    the threshold: the iteration returns, and only the collaborators'
    state has changed. *)
Lemma learn_iteration_passing w calls inputs w1 predictions w2 feedback w' :
  get_data_batch batch_size w = (Ok inputs, w1) ->
  skills_apply (skills agent) inputs runtime w1 = (Ok predictions, w2) ->
  get_feedback (skills agent) predictions num_feedbacks w2
  = (Ok feedback, w') ->
  forallb (fun i => at_least (get_accuracy feedback) t i.1)
    (skill_outputs (skills agent)) = true ->
  learn_iteration runtime teacher_runtime t batch_size num_feedbacks
    {| self := agent; world := w; teacher_calls := calls |}
  = (Ok tt, {| self := agent; world := w'; teacher_calls := calls |}).
Proof.
  intros Hb Ha Hf Hall.
  rewrite learn_iteration_observe.
  unfold observe, mbind, M_bind, bind, get.
  rewrite call_eq. cbn [world self teacher_calls]. rewrite Hb. cbn [fst snd].
  rewrite call_eq. cbn [world self teacher_calls]. rewrite Ha. cbn [fst snd].
  rewrite call_eq. cbn [world self teacher_calls]. rewrite Hf. cbn [fst snd].
  unfold mret, M_ret, ret. cbn [self].
  now rewrite (select_none _ _ _ Hall).
Qed.

(** X19: [Inv k] is a property of the collaborators' state after [k]
    observations. When it holds at 0 of the state the loop starts in, and
    when from a state where it holds at [k] an observation never raises,
    reports every output at or above the threshold and leaves a state where
    it holds at [k + 1], the loop asked for [n] iterations returns normally
    in a state where it holds at [n]: all the iterations have run. The
    teacher has not been called and the agent is as it was. *)
Theorem learn_loop_all_passing (Inv : nat -> World -> Prop) (n : nat) w calls :
  Inv 0 w ->
  (forall k w0, Inv k w0 ->
     exists inputs w1 predictions w2 feedback w3,
       get_data_batch batch_size w0 = (Ok inputs, w1)
       /\ skills_apply (skills agent) inputs runtime w1 = (Ok predictions, w2)
       /\ get_feedback (skills agent) predictions num_feedbacks w2
          = (Ok feedback, w3)
       /\ forallb (fun i => at_least (get_accuracy feedback) t i.1)
            (skill_outputs (skills agent)) = true
       /\ Inv (S k) w3) ->
  exists w',
    learn_loop runtime teacher_runtime t batch_size num_feedbacks n
      {| self := agent; world := w; teacher_calls := calls |}
    = (Ok tt, {| self := agent; world := w'; teacher_calls := calls |})
    /\ Inv n w'.
Proof.
  intros Hw Hstep.
  assert (forall m k w0, Inv k w0 ->
            exists w',
              learn_loop runtime teacher_runtime t batch_size num_feedbacks m
                {| self := agent; world := w0; teacher_calls := calls |}
              = (Ok tt,
                 {| self := agent; world := w'; teacher_calls := calls |})
              /\ Inv (k + m) w') as Hloop.
  { induction m as [|m IH]; intros k w0 Hk.
    - exists w0. rewrite Nat.add_0_r. now split.
    - destruct (Hstep k w0 Hk)
        as (inputs & w1 & predictions & w2 & feedback & w3
            & Hb & Ha & Hf & Hall & Hw3).
      destruct (IH (S k) w3 Hw3) as (w' & Hrun & Hw').
      exists w'. split.
      + erewrite learn_loop_step; [exact Hrun|].
        now apply learn_iteration_passing
          with inputs w1 predictions w2 feedback.
      + now replace (k + S m) with (S k + m) by lia. }
  exact (Hloop n 0 w Hw).
Qed.
End Passing.

(** ** More on example building and rendering *)

Section BuildingMore.
Context {python_format : StrFormat}.
Implicit Types (train_skill : Skill) (out : string).
Implicit Types (row : gmap string value) (rows : list (gmap string value)).

(** X20: the example loop only appends: what it returns starts with the
    examples it was entered with, followed by at most one block per
    record. *)
Theorem build_examples_extends train_skill out rows examples built :
  build_examples train_skill out rows examples = Ok built ->
  exists blocks,
    built = (examples ++ blocks)%list /\ length blocks <= length rows.
Proof.
  revert examples. induction rows as [|row rows IH]; intros examples; simpl.
  - intros [= <-]. exists []. rewrite app_nil_r. split; [reflexivity|simpl; lia].
  - destruct (example_of_row train_skill out row) as [[block|]|e]; simpl;
      [| |discriminate].
    + intros H. destruct (IH _ H) as (blocks & -> & Hlen).
      exists (block :: blocks). rewrite <- app_assoc. simpl.
      split; [reflexivity|lia].
    + intros H. destruct (IH _ H) as (blocks & -> & Hlen).
      exists blocks. split; [reflexivity|lia].
Qed.

(** X22: a replacement field whose text is a plain name that the record has
    is replaced by the [str] of its cell; the text without braces before it
    is kept and the rest of the template is rendered after it, an exception
    raised there being the outcome. *)
Theorem format_template_substitutes row lit f rest v :
  no_brace lit = true -> plain_name f = true -> row !! f = Some v ->
  format_template (lit +:+ "{" +:+ f +:+ "}" +:+ rest) row
  = (out ← format_template rest row; mret (lit +:+ py_str v +:+ out)).
Proof.
  intros Hlit Hf Hrow. unfold format_template.
  rewrite format_scan_literal_prefix by assumption.
  destruct f as [|c f]; [discriminate|].
  simpl in Hf. apply andb_prop in Hf as [Hc Hf].
  change ("{" +:+ String c f +:+ "}" +:+ rest)
    with (String "{" (String c (f +:+ String "}" rest))).
  rewrite format_scan_open
    by (apply name_char_not_brace; now apply name_start_char).
  simpl. rewrite Hc.
  rewrite format_scan_field by (reflexivity || exact Hf).
  change ("" +:+ String c "") with (String c "").
  change (String c "" +:+ f) with (String c f).
  unfold row_getitem. rewrite Hrow.
  now destruct (format_scan row None rest).
Qed.
End BuildingMore.

(** ** The further properties on the concrete setting *)

Section FurtherExamples.
Import Scenario.

Lemma select_result_sound_witness :
  let feedback := feedback_of [] {[ "title" := f0_95; "summary" := f0_5 ]} in
  exists pre post,
    skill_outputs (skills (agent two_skills))
    = (pre ++ ("summary", "summarize") :: post)%list
    /\ forallb (fun i => passes (get_accuracy feedback) f0_9 i.1) pre = true
    /\ get_accuracy feedback !! "summary" = Some f0_5
    /\ float_lt f0_5 f0_9 = true.
Proof.
  apply (select_result_sound (agent two_skills)
           (feedback_of [] {[ "title" := f0_95; "summary" := f0_5 ]}) f0_9
           "summarize" "summary" (Some f0_5)).
  reflexivity.
Defined.

(** The accuracy of [title] is NaN and the one of [summary] is below the
    threshold: [summary] is selected. *)
Lemma select_skips_nan_witness :
  select_skill_to_train (agent two_skills)
    (feedback_of [] {[ "title" := S754_nan; "summary" := f0_5 ]}) f0_9
  = select_loop
      (get_accuracy
         (feedback_of [] {[ "title" := S754_nan; "summary" := f0_5 ]})) f0_9
      [("summary", "summarize")].
Proof.
  apply (select_skips_nan (agent two_skills)
           (feedback_of [] {[ "title" := S754_nan; "summary" := f0_5 ]}) f0_9
           [] "title" "titler" [("summary", "summarize")]);
    reflexivity.
Defined.

Lemma runtime_lookup_witness :
  get_runtime (agent skillset) (Some "openai")
  = match Dict.get [("openai", "worker")] "openai" with
    | Some r => Ok r
    | None =>
        Raise (ValueError
          ("Runtime " +:+ dq +:+ "openai" +:+ dq +:+ " not found."))
    end
  /\ get_teacher_runtime (agent skillset) (Some "openai")
     = match Dict.get [("openai-gpt3", "teacher")] "openai" with
       | Some r => Ok r
       | None =>
           Raise (ValueError
             ("Teacher Runtime " +:+ dq +:+ "openai" +:+ dq +:+ " not found."))
       end.
Proof. apply (runtime_lookup (agent skillset)); reflexivity. Defined.

Lemma verified_defaults_resolve_witness :
  (exists r, get_runtime (agent skillset) None = Ok r)
  /\ (exists r, get_teacher_runtime (agent skillset) None = Ok r).
Proof.
  apply (verified_defaults_resolve repr_plain (agent skillset) []
           (agent skillset)).
  reflexivity.
Defined.

Lemma run_unresolved_runtime_witness :
  let st := start skillset (world_with wrong wrong f0_5 []) in
  let e := ValueError ("Runtime " +:+ dq +:+ "llama" +:+ dq +:+ " not found.") in
  (forall input, run (Some input) (Some "llama") st = (Raise e, st))
  /\ (forall batch w,
        get_data_batch None (world st) = (Ok batch, w) ->
        run None (Some "llama") st
        = (Raise e,
           {| self := self st; world := w;
              teacher_calls := teacher_calls st |})).
Proof.
  apply (run_unresolved_runtime (Some "llama")
           (start skillset (world_with wrong wrong f0_5 []))).
  reflexivity.
Defined.

Lemma learn_unresolved_runtime_witness :
  let st := start skillset (world_with wrong wrong f0_5 []) in
  learn 3 f0_9 None None None (Some "gpt4") st
  = (Raise (ValueError
       ("Teacher Runtime " +:+ dq +:+ "gpt4" +:+ dq +:+ " not found.")), st).
Proof.
  apply (learn_unresolved_runtime 3 f0_9 None None None (Some "gpt4")
           (start skillset (world_with wrong wrong f0_5 []))).
  right. split; [eexists|]; reflexivity.
Defined.

Lemma learn_no_iteration_witness :
  let st := start skillset (world_with wrong wrong f0_5 []) in
  learn (-1) f0_9 None None None None st = (Ok tt, st).
Proof.
  apply (learn_no_iteration (-1) f0_9 None None None None
           (start skillset (world_with wrong wrong f0_5 []))
           "worker" "teacher"); [lia|reflexivity|reflexivity].
Defined.

Lemma learn_selected_skill_missing_witness :
  let st := start orphan_output (world_with wrong wrong f0_5 []) in
  exists st1,
    learn_loop "worker" "teacher" f0_9 None None 3 st
    = (Raise (KeyError "summarise"), st1)
    /\ self st1 = self st
    /\ teacher_calls st1 = teacher_calls st.
Proof.
  intros st. eexists.
  eapply learn_selected_skill_missing with (out := "summary");
    reflexivity.
Defined.

Lemma learn_iteration_skips_unnamed_skill_witness :
  let st := start unnamed_owner (world_with wrong wrong f0_5 []) in
  exists st1,
    select_skill_to_train (self st) (env_feedback (world st)) f0_9
    = Ok ("", "summary", Some f0_5)
    /\ learn_iteration "worker" "teacher" f0_9 None None st = (Ok tt, st1).
Proof.
  intros st. eexists.
  eapply learn_iteration_skips_unnamed_skill with (pre := []);
    reflexivity.
Defined.

(** The feedback is on an output, [label], which is not a column of the
    predictions: its column is not renamed, and the records have no column
    [label__fb]. *)
Lemma learn_feedback_column_missing_witness :
  let st :=
    start {| skills_by_name := {[ "summarize" := summarize ]};
             skill_outputs := [("label", "summarize")] |}
      {| served := 0; inputs := batch; predictions := predicted;
         env_feedback :=
           {| feedback :=
                {| table_columns := ["label"];
                   table_rows := [[wrong]; [wrong]] |};
              accuracy := {[ "label" := f0_5 ]} |};
         script := [] |} in
  exists st1,
    learn_loop "worker" "teacher" f0_9 None None 3 st
    = (Raise (KeyError "label__fb"), st1)
    /\ self st1 = self st
    /\ teacher_calls st1 = teacher_calls st.
Proof.
  intros st. eexists.
  eapply learn_feedback_column_missing with (out := "label");
    reflexivity.
Defined.

(** Three iterations: the environment has served three batches. *)
Lemma learn_loop_all_passing_witness :
  exists w',
    learn_loop "worker" "teacher" f0_9 None None 3
      (start skillset (world_with wrong wrong f0_95 []))
    = (Ok tt,
       {| self := agent skillset; world := w'; teacher_calls := [] |})
    /\ served w' = 3
    /\ env_feedback w' = env_feedback (world_with wrong wrong f0_95 []).
Proof.
  apply (learn_loop_all_passing "worker" "teacher" f0_9 None None
           (agent skillset)
           (fun k w =>
              served w = k
              /\ env_feedback w
                 = env_feedback (world_with wrong wrong f0_95 []))
           3 (world_with wrong wrong f0_95 []) []).
  - split; reflexivity.
  - intros k w0 [Hk Hw0]. do 6 eexists.
    repeat split; simpl; rewrite ?Hw0, ?Hk; reflexivity.
Defined.

Lemma build_examples_omap_witness :
  let block_of row :=
    match example_of_row summarize "summary" row with
    | Ok block => block
    | Raise _ => None
    end in
  let rows :=
    analyzed_records predicted
      (feedback_of [PyNone; wrong] {[ "summary" := f0_5 ]}) in
  build_examples summarize "summary" rows ["earlier"]
  = Ok (["earlier"] ++ omap block_of rows)%list.
Proof.
  apply (build_examples_omap summarize "summary").
  repeat constructor.
Defined.

Lemma build_examples_extends_witness :
  let rows :=
    analyzed_records predicted
      (feedback_of [PyNone; wrong] {[ "summary" := f0_5 ]}) in
  exists blocks,
    ["earlier";
     "Text: d e f" +:+ nl +:+ "Summary: d" +:+ nl
     +:+ "Feedback: Prediction is incorrect." +:+ nl +:+ nl]
    = (["earlier"] ++ blocks)%list
    /\ length blocks <= length rows.
Proof.
  apply (build_examples_extends summarize "summary"
           (analyzed_records predicted
              (feedback_of [PyNone; wrong] {[ "summary" := f0_5 ]}))
           ["earlier"]
           ["earlier";
            "Text: d e f" +:+ nl +:+ "Summary: d" +:+ nl
            +:+ "Feedback: Prediction is incorrect." +:+ nl +:+ nl]).
  reflexivity.
Defined.

Lemma format_template_missing_field_witness :
  format_template ("Headline: " +:+ "{" +:+ "headline" +:+ "}" +:+ "!")
    {[ "text" := PyStr "a b c" ]}
  = Raise (KeyError "headline").
Proof. apply format_template_missing_field; reflexivity. Defined.

Lemma format_template_substitutes_witness :
  format_template ("Text: " +:+ "{" +:+ "text" +:+ "}" +:+ " ({n})")
    {[ "text" := PyStr "a b c"; "n" := PyInt (-3) ]}
  = (out ← format_template " ({n})"
             {[ "text" := PyStr "a b c"; "n" := PyInt (-3) ]};
     mret ("Text: " +:+ py_str (PyStr "a b c") +:+ out)).
Proof. apply format_template_substitutes; reflexivity. Defined.
End FurtherExamples.
